(** * Worker initialisation and reseeding glue, and the Velox column factory

    Shallow embedding of
      - [torchdata/dataloader2/utils/worker.py]
        ([WorkerInfo], [_DistInfo], [process_init_fn],
         [_set_global_random_state], [dispatch_process_reset_fn],
         [process_reset_fn]);
      - [torcharrow/velox_rt/column.py] ([ColumnFromVelox.from_velox]).

    The worker functions are orchestration code: they call into the DataPipe
    graph library, the communication layer and three random number
    generators.  Those collaborators are not part of the embedded files, so
    they are taken as parameters (class [Collaborators]); every call that has
    an effect outside the function is recorded, in program order, in a
    history of [event]s, and an answer a collaborator computes from mutable
    state is a function of that history. *)

From Stdlib Require Import ZArith List Bool Lia.
From stdpp Require Import gmap strings list fin_maps.
Import ListNotations.

Local Open Scope Z_scope.

(* ===================================================================== *)
(** ** Data model of worker.py                                            *)
(* ===================================================================== *)

(** [@dataclass(frozen=True) class WorkerInfo] *)
Record WorkerInfo := mkWorkerInfo {
  num_workers : Z;
  worker_id : Z
}.

(** [@dataclass(frozen=True) class _DistInfo]; [world_size] defaults to 1 and
    [rank] to 0 in the source. *)
Record _DistInfo := mkDistInfo {
  shared_seed : Z;
  world_size : Z;
  rank : Z
}.

Definition _DistInfo_default (seed : Z) : _DistInfo :=
  {| shared_seed := seed; world_size := 1; rank := 0 |}.

(** The classes the two functions test objects against, with [isinstance]
    or through [find_dps]. *)
Inductive py_class :=
| IterDataPipe
| MapDataPipe
| _DummyIterDataPipe
| _IterateQueueDataPipes.

(** [SHARDING_PRIORITIES]: only [MULTIPROCESSING] is used by this file. *)
Inductive SHARDING_PRIORITIES := DEFAULT | DISTRIBUTED | MULTIPROCESSING.

(** [torch.int32] is the one dtype named in the file; a call of
    [generate_random_int] without a dtype is [None]. *)
Inductive torch_dtype := torch_int32.

(** The [assert] statements of worker.py, by line.  All of them raise
    [AssertionError]; the site is kept to tell them apart. *)
Inductive assert_site :=
| L81_queues_absent            (* assert req is None and res is None *)
| L86_single_non_replicable    (* assert len(non_replicable_dp) == 1 *)
| L87_queues_given             (* assert not (req is None and res is None) *)
| L103_init_returns_datapipe   (* assert isinstance(datapipe, (Iter.., Map..)) *)
| L162_single_consumer         (* assert len(dispatch_process_consumer_dps) == 1 *)
| L187_reset_returns_datapipe. (* assert isinstance(datapipe, (Iter.., Map..)) *)

Inductive exception :=
| AssertionError (site : assert_site)
| IndexError.

Inductive outcome (A : Type) :=
| Returns (a : A)
| Raises (e : exception).
Arguments Returns {A} a.
Arguments Raises {A} e.

Section Model.

(** Python objects (DataPipes and whatever a custom function returns) and
    multiprocessing queues are opaque. *)
Context {Obj Queue : Type}.

(** [communication.protocol.IterDataPipeQueueProtocolClient(req, res)] *)
Record IterDataPipeQueueProtocolClient := mkProtocolClient {
  request_queue : option Queue;
  response_queue : option Queue
}.

(** [communication.iter.QueueWrapper(protocol)] *)
Record QueueWrapper := mkQueueWrapper {
  protocol : IterDataPipeQueueProtocolClient
}.

(** [DataPipeGraph = Dict[int, Tuple[DataPipe, DataPipeGraph]]], as the
    items of the dict in insertion order. *)
Inductive DataPipeGraph :=
| Graph (items : list graph_item)
with graph_item :=
| Item (key : Z) (datapipe : Obj) (sources : DataPipeGraph).

(** [list(graph.values())], each value a pair [(datapipe, sources)] *)
Definition graph_values (g : DataPipeGraph) : list (Obj * DataPipeGraph) :=
  match g with
  | Graph items =>
      map (fun it => match it with Item _ dp src => (dp, src) end) items
  end.

(** A [torch.Generator], symbolically: the seed it was last given and what
    has been drawn from it since. *)
Inductive draw :=
| DrawInt (dtype : option torch_dtype)      (* one generate_random_int *)
| DrawGraphSeeds (datapipe : Obj).          (* one apply_random_seed *)

Record Generator := mkGenerator {
  initial_seed : Z;
  drawn : list draw
}.

(** [partial(dispatch_process_reset_fn, dist_info=dist_info)] *)
Inductive reset_closure :=
| partial_dispatch_process_reset_fn (dist_info : _DistInfo).

(** The calls with an effect outside the function. *)
Inductive event :=
| Call_apply_sharding (datapipe : Obj) (num_of_instances instance_id : Z)
                      (sharding_group : SHARDING_PRIORITIES)
| Call_replace_dp (graph : DataPipeGraph) (old_datapipe new_datapipe : Obj)
| Call_custom_fn (datapipe : Obj) (worker_info : WorkerInfo)
| Call_reset_epoch (consumer : Obj) (reset_fn : reset_closure)
| Call_manual_seed (seed : Z)                       (* Generator.manual_seed *)
| Call_apply_random_seed (datapipe : Obj) (rng : Generator)
| Call_random_seed (seed : Z)                       (* random.seed *)
| Call_torch_manual_seed (seed : Z)                 (* torch.manual_seed *)
| Call_numpy_random_seed (seed : Z).                (* numpy.random.seed *)

Definition history := list event.

(** [custom_init_fn] / [custom_reset_fn]: any Python callable; what it
    returns may depend on everything done so far. *)
Definition custom_fn := Obj -> WorkerInfo -> history -> Obj.

(** What worker.py imports and calls.  Collaborators are assumed to return
    normally. *)
Class Collaborators := {
  traverse_dps : history -> Obj -> DataPipeGraph;
  find_dps : DataPipeGraph -> py_class -> list Obj;
  find_replicable_branches : DataPipeGraph -> list Obj;
  replace_dp : history -> DataPipeGraph -> Obj -> Obj -> DataPipeGraph;
  isinstance : Obj -> py_class -> bool;
  (* communication.iter._IterateQueueDataPipes(datapipes) *)
  new_IterateQueueDataPipes : list QueueWrapper -> Obj;
  (* the value generate_random_int(rng, dtype) reads off the generator *)
  random_int_value : Generator -> option torch_dtype -> Z;
  (* the seed of a fresh torch.Generator() *)
  default_rng_seed : Z;
  HAS_NUMPY : bool
}.

(* =================================================================== *)
(** ** State and exception monad                                        *)
(* =================================================================== *)

Definition M (A : Type) : Type := history -> outcome A * history.

Definition ret {A} (a : A) : M A := fun h => (Returns a, h).

Definition bind {A B} (m : M A) (k : A -> M B) : M B :=
  fun h => match m h with
           | (Returns a, h') => k a h'
           | (Raises e, h') => (Raises e, h')
           end.

Definition raise {A} (e : exception) : M A := fun h => (Raises e, h).

(** An effectful call: appended to the history. *)
Definition call (e : event) : M unit := fun h => (Returns tt, h ++ [e]).

(** A query answered from the current state. *)
Definition ask {A} (f : history -> A) : M A := fun h => (Returns (f h), h).

Definition assert (b : bool) (site : assert_site) : M unit :=
  if b then ret tt else raise (AssertionError site).

(** [for x in xs: body(x)] *)
Fixpoint for_each {A} (xs : list A) (body : A -> M unit) : M unit :=
  match xs with
  | [] => ret tt
  | x :: xs' => bind (body x) (fun _ => for_each xs' body)
  end.

(** [xs[0]] *)
Definition index0 {A} (xs : list A) : M A :=
  match xs with
  | x :: _ => ret x
  | [] => raise IndexError
  end.

End Model.

Arguments Collaborators : clear implicits.
Arguments DataPipeGraph : clear implicits.
Arguments graph_item : clear implicits.
Arguments event : clear implicits.
Arguments history : clear implicits.
Arguments custom_fn : clear implicits.
Arguments Generator : clear implicits.
Arguments draw : clear implicits.
Arguments QueueWrapper : clear implicits.
Arguments IterDataPipeQueueProtocolClient : clear implicits.
Arguments M : clear implicits.

Declare Scope py_scope.
Delimit Scope py_scope with py.
Notation "x <- c1 ;; c2" := (bind c1 (fun x => c2))
  (at level 100, c1 at next level, right associativity) : py_scope.
Notation "c1 ;;; c2" := (bind c1 (fun _ => c2))
  (at level 100, c2 at level 200, right associativity) : py_scope.

Definition is_None {A} (o : option A) : bool :=
  match o with None => true | Some _ => false end.

(* ===================================================================== *)
(** ** worker.py                                                          *)
(* ===================================================================== *)

Section Worker.

Context {Obj Queue : Type} {env : Collaborators Obj Queue}.

Local Open Scope py_scope.

Abbreviation M' := (M Obj).

(** [torch.Generator()] *)
Definition torch_Generator : Generator Obj :=
  {| initial_seed := default_rng_seed; drawn := [] |}.

(** [rng.manual_seed(seed)] *)
Definition manual_seed (rng : Generator Obj) (seed : Z) : M' (Generator Obj) :=
  call (Call_manual_seed seed) ;;;
  ret {| initial_seed := seed; drawn := [] |}.

(** The generator after one more draw. *)
Definition advance (rng : Generator Obj) (d : draw Obj) : Generator Obj :=
  {| initial_seed := initial_seed rng; drawn := drawn rng ++ [d] |}.

(** [generate_random_int(rng, dtype)]: the value and the advanced
    generator. *)
Definition generate_random_int (rng : Generator Obj) (dtype : option torch_dtype)
  : Z * Generator Obj :=
  (random_int_value rng dtype, advance rng (DrawInt dtype)).

(** [torch.utils.data.graph_settings.apply_random_seed(datapipe, rng)] *)
Definition apply_random_seed (datapipe : Obj) (rng : Generator Obj)
  : M' (Generator Obj) :=
  call (Call_apply_random_seed datapipe rng) ;;;
  ret (advance rng (DrawGraphSeeds datapipe)).

(** [torch.utils.data.graph_settings.apply_sharding(dp, n, id, group)] *)
Definition apply_sharding (datapipe : Obj) (num_of_instances instance_id : Z)
    (sharding_group : SHARDING_PRIORITIES) : M' unit :=
  call (Call_apply_sharding datapipe num_of_instances instance_id sharding_group).

(** [isinstance(datapipe, (IterDataPipe, MapDataPipe))] *)
Definition is_datapipe (o : Obj) : bool :=
  isinstance o IterDataPipe || isinstance o MapDataPipe.

(** [replace_dp(graph, old_datapipe, new_datapipe)]: rewires the DataPipes
    in place and returns the new graph. *)
Definition call_replace_dp (graph : DataPipeGraph Obj)
    (old_datapipe new_datapipe : Obj) : M' (DataPipeGraph Obj) :=
  graph' <- ask (fun h => replace_dp h graph old_datapipe new_datapipe) ;;
  call (Call_replace_dp graph old_datapipe new_datapipe) ;;;
  ret graph'.

(** The optional customisation step, written the same way in both
    functions (lines 101-103 and 185-187):
      [if custom_fn is not None:
           datapipe = custom_fn(datapipe, worker_info)
           assert isinstance(datapipe, (IterDataPipe, MapDataPipe))] *)
Definition apply_custom_fn (custom : option (custom_fn Obj))
    (datapipe : Obj) (worker_info : WorkerInfo) (site : assert_site) : M' Obj :=
  match custom with
  | Some f =>
      returned <- ask (f datapipe worker_info) ;;
      call (Call_custom_fn datapipe worker_info) ;;;
      assert (is_datapipe returned) site ;;;
      ret returned
  | None => ret datapipe
  end.

(** Lines 72-99 of [process_init_fn]: sharding and, with a non-replicable
    branch, the rewrite of the graph.  The result is the value of the
    variable [datapipe] at line 101. *)
Definition shard_graph (datapipe : Obj) (worker_info : WorkerInfo)
    (dispatching_req_queue dispatching_res_queue : option Queue) : M' Obj :=
  (* Find if there is non-replicable DataPipe *)
  graph <- ask (fun h => traverse_dps h datapipe) ;;
  let non_replicable_dp := find_dps graph _DummyIterDataPipe in
  (* 1) All DataPipes are replicable, apply mp sharding to the whole graph *)
  if (length non_replicable_dp =? 0)%nat then
    apply_sharding datapipe (num_workers worker_info) (worker_id worker_info)
                   MULTIPROCESSING ;;;
    assert (is_None dispatching_req_queue && is_None dispatching_res_queue)
           L81_queues_absent ;;;
    ret datapipe
  (* 2) There is non-replicable DataPipe: only apply mp sharding to
        replicable branches that don't have _DummyIterDataPipe *)
  else
    assert (length non_replicable_dp =? 1)%nat L86_single_non_replicable ;;;
    assert (negb (is_None dispatching_req_queue && is_None dispatching_res_queue))
           L87_queues_given ;;;
    let replicable_branches := find_replicable_branches graph in
    for_each replicable_branches (fun dp =>
      apply_sharding dp (num_workers worker_info) (worker_id worker_info)
                     MULTIPROCESSING) ;;;
    let queue_wrapper :=
      mkQueueWrapper (mkProtocolClient dispatching_req_queue dispatching_res_queue) in
    let dispatch_process_dp := new_IterateQueueDataPipes [queue_wrapper] in
    non_replicable_dp_0 <- index0 non_replicable_dp ;;
    graph <- call_replace_dp graph non_replicable_dp_0 dispatch_process_dp ;;
    first_value <- index0 (graph_values graph) ;;
    ret (fst first_value).

(** [process_init_fn(datapipe, worker_info, custom_init_fn=None,
                     dispatching_req_queue=None, dispatching_res_queue=None)] *)
Definition process_init_fn (datapipe : Obj) (worker_info : WorkerInfo)
    (custom_init_fn : option (custom_fn Obj))
    (dispatching_req_queue dispatching_res_queue : option Queue) : M' Obj :=
  datapipe <- shard_graph datapipe worker_info
                          dispatching_req_queue dispatching_res_queue ;;
  apply_custom_fn custom_init_fn datapipe worker_info L103_init_returns_datapipe.

(** [_set_global_random_state(seed_generator)]; the generator is mutated in
    the source and returned here. *)
Definition _set_global_random_state (seed_generator : Generator Obj)
  : M' (Generator Obj) :=
  let '(py_seed, seed_generator) := generate_random_int seed_generator None in
  call (Call_random_seed py_seed) ;;;
  let '(torch_seed, seed_generator) := generate_random_int seed_generator None in
  call (Call_torch_manual_seed torch_seed) ;;;
  if HAS_NUMPY then
    (* Numpy only accepts uint32 as the seed *)
    let '(np_seed, seed_generator) :=
      generate_random_int seed_generator (Some torch_int32) in
    let np_seed := if np_seed <? 0 then 2 ^ 32 + np_seed else np_seed in
    call (Call_numpy_random_seed np_seed) ;;;
    ret seed_generator
  else
    ret seed_generator.

(** [dispatch_process_reset_fn(datapipe, worker_info, dist_info)] *)
Definition dispatch_process_reset_fn (datapipe : Obj) (worker_info : WorkerInfo)
    (dist_info : _DistInfo) : M' Obj :=
  let worker_seed_generator := torch_Generator in
  worker_seed_generator <- manual_seed worker_seed_generator (shared_seed dist_info) ;;
  worker_seed_generator <- apply_random_seed datapipe worker_seed_generator ;;
  (* Set global random states *)
  _set_global_random_state worker_seed_generator ;;;
  ret datapipe.

(** Lines 159-168 of [process_reset_fn]: reset the non-sharding process
    first. *)
Definition reset_dispatch_process (datapipe : Obj) (worker_info : WorkerInfo)
    (dist_info : _DistInfo) : M' unit :=
  graph <- ask (fun h => traverse_dps h datapipe) ;;
  let dispatch_process_consumer_dps := find_dps graph _IterateQueueDataPipes in
  if (0 <? length dispatch_process_consumer_dps)%nat then
    assert (length dispatch_process_consumer_dps =? 1)%nat L162_single_consumer ;;;
    dispatch_process_consumer_dp <- index0 dispatch_process_consumer_dps ;;
    (* Only send the reset epoch message once *)
    if worker_id worker_info =? 0 then
      let dispatch_reset_fn := partial_dispatch_process_reset_fn dist_info in
      call (Call_reset_epoch dispatch_process_consumer_dp dispatch_reset_fn)
    else ret tt
  else ret tt.

(** Line 179 *)
Definition global_worker_id (worker_info : WorkerInfo) (dist_info : _DistInfo) : Z :=
  worker_id worker_info * world_size dist_info + rank dist_info.

(** Lines 171-183 of [process_reset_fn]: seed the graph, then the global
    random states. *)
Definition reseed (datapipe : Obj) (worker_info : WorkerInfo)
    (dist_info : _DistInfo) : M' unit :=
  let worker_seed_generator := torch_Generator in
  worker_seed_generator <- manual_seed worker_seed_generator (shared_seed dist_info) ;;
  worker_seed_generator <- apply_random_seed datapipe worker_seed_generator ;;
  (* Set different seeds across distributed workers *)
  let global_worker_id := global_worker_id worker_info dist_info in
  worker_seed_generator <-
    manual_seed worker_seed_generator (shared_seed dist_info + global_worker_id) ;;
  (* Set global random states *)
  _set_global_random_state worker_seed_generator ;;;
  ret tt.

(** [process_reset_fn(datapipe, worker_info, dist_info, custom_reset_fn=None)] *)
Definition process_reset_fn (datapipe : Obj) (worker_info : WorkerInfo)
    (dist_info : _DistInfo) (custom_reset_fn : option (custom_fn Obj)) : M' Obj :=
  reset_dispatch_process datapipe worker_info dist_info ;;;
  reseed datapipe worker_info dist_info ;;;
  apply_custom_fn custom_reset_fn datapipe worker_info L187_reset_returns_datapipe.

(* =================================================================== *)
(** ** Observing a run                                                  *)
(* =================================================================== *)

(** The events a run adds to the history it starts from. *)
Definition events_of {A} (m : M' A) (h : history Obj) : list (event Obj) :=
  skipn (length h) (snd (m h)).

Definition raises_assertion {A} (r : outcome A) : Prop :=
  exists site, r = Raises (AssertionError site).

(** "Both absent" and its negation, as lines 81 and 87 test them. *)
Definition queues_absent (req res : option Queue) : bool :=
  is_None req && is_None res.

Definition exactly_one_queue (req res : option Queue) : bool :=
  xorb (is_None req) (is_None res).

(** The run got past the three assertions on branches and queues. *)
Definition passes_branch_checks {A} (r : outcome A) : bool :=
  match r with
  | Raises (AssertionError L81_queues_absent)
  | Raises (AssertionError L86_single_non_replicable)
  | Raises (AssertionError L87_queues_given) => false
  | _ => true
  end.

Definition sharding_call (worker_info : WorkerInfo) (dp : Obj) : event Obj :=
  Call_apply_sharding dp (num_workers worker_info) (worker_id worker_info)
                      MULTIPROCESSING.

(** The stand-in built at lines 94-97. *)
Definition dispatch_process_dp (req res : option Queue) : Obj :=
  new_IterateQueueDataPipes [mkQueueWrapper (mkProtocolClient req res)].

(* =================================================================== *)
(** ** The calls of a run of [process_reset_fn], by kind                 *)
(* =================================================================== *)

(** A generator right after [manual_seed(seed)]. *)
Definition seeded (seed : Z) : Generator Obj :=
  {| initial_seed := seed; drawn := [] |}.

(** The seed line 180 gives the generator. *)
Definition worker_seed (wi : WorkerInfo) (di : _DistInfo) : Z :=
  shared_seed di + global_worker_id wi di.

(** The calls [_set_global_random_state] makes when handed [g]. *)
Definition global_seed_calls (g : Generator Obj) : list (event Obj) :=
  let g1 := advance g (DrawInt None) in
  let g2 := advance g1 (DrawInt None) in
  Call_random_seed (random_int_value g None)
  :: Call_torch_manual_seed (random_int_value g1 None)
  :: (if HAS_NUMPY then
        let np_seed := random_int_value g2 (Some torch_int32) in
        [Call_numpy_random_seed (if np_seed <? 0 then 2 ^ 32 + np_seed else np_seed)]
      else []).

(** The reset-epoch messages of a run, given the consumers found. *)
Definition reset_messages (wi : WorkerInfo) (di : _DistInfo)
    (consumers : list Obj) : list (event Obj) :=
  if worker_id wi =? 0 then
    map (fun c => Call_reset_epoch c (partial_dispatch_process_reset_fn di)) consumers
  else [].

(** The calls of lines 171-183. *)
Definition reseed_calls (dp : Obj) (wi : WorkerInfo) (di : _DistInfo)
  : list (event Obj) :=
  [Call_manual_seed (shared_seed di);
   Call_apply_random_seed dp (seeded (shared_seed di));
   Call_manual_seed (worker_seed wi di)]
  ++ global_seed_calls (seeded (worker_seed wi di)).

Definition custom_calls (custom : option (custom_fn Obj)) (dp : Obj)
    (wi : WorkerInfo) : list (event Obj) :=
  match custom with
  | Some _ => [Call_custom_fn dp wi]
  | None => []
  end.

(** Projections of a list of events. *)
Definition reset_epochs (evs : list (event Obj)) : list (Obj * reset_closure) :=
  flat_map (fun e => match e with
                     | Call_reset_epoch c f => [(c, f)]
                     | _ => []
                     end) evs.

(** The DataPipes given to [apply_random_seed], each with the generator it
    was seeded from. *)
Definition graph_seedings (evs : list (event Obj)) : list (Obj * Generator Obj) :=
  flat_map (fun e => match e with
                     | Call_apply_random_seed dp rng => [(dp, rng)]
                     | _ => []
                     end) evs.

(** The seeds the graph was seeded from. *)
Definition graph_seeds (evs : list (event Obj)) : list Z :=
  map (fun p => initial_seed (snd p)) (graph_seedings evs).

(** The seeds given to [Generator.manual_seed]. *)
Definition generator_seeds (evs : list (event Obj)) : list Z :=
  flat_map (fun e => match e with
                     | Call_manual_seed seed => [seed]
                     | _ => []
                     end) evs.

(** The seed the generator holds at the end, from which the global random
    states were set: the worker seed of the run. *)
Definition derived_worker_seed (evs : list (event Obj)) : option Z :=
  last (generator_seeds evs).

(** The calls that set a process-wide random state. *)
Definition global_seedings (evs : list (event Obj)) : list (event Obj) :=
  List.filter (fun e => match e with
                   | Call_random_seed _ | Call_torch_manual_seed _
                   | Call_numpy_random_seed _ => true
                   | _ => false
                   end) evs.

(** The seeds given to [numpy.random.seed]. *)
Definition numpy_seeds (evs : list (event Obj)) : list Z :=
  flat_map (fun e => match e with
                     | Call_numpy_random_seed seed => [seed]
                     | _ => []
                     end) evs.

(** Nothing but calls of the custom function. *)
Definition only_custom_calls (evs : list (event Obj)) : bool :=
  forallb (fun e => match e with Call_custom_fn _ _ => true | _ => false end) evs.

End Worker.

(* ===================================================================== *)
(** ** More projections of a run                                          *)
(* ===================================================================== *)

Section MoreObservations.

Context {Obj Queue : Type} {env : Collaborators Obj Queue}.

(** The [apply_sharding] calls: the DataPipe, then [num_of_instances],
    [instance_id] and [sharding_group]. *)
Definition sharding_calls (evs : list (event Obj))
  : list (Obj * (Z * Z * SHARDING_PRIORITIES)) :=
  flat_map (fun e => match e with
                     | Call_apply_sharding dp n i group => [(dp, (n, i, group))]
                     | _ => []
                     end) evs.


(** The calls of the custom function, with their arguments. *)
Definition custom_fn_calls (evs : list (event Obj)) : list (Obj * WorkerInfo) :=
  flat_map (fun e => match e with
                     | Call_custom_fn dp wi => [(dp, wi)]
                     | _ => []
                     end) evs.

(** The calls of lines 72-99, by the shape of what [find_dps] returns. *)
Definition init_path_calls (dp : Obj) (wi : WorkerInfo)
    (req res : option Queue) (h : history Obj) : list (event Obj) :=
  let graph := traverse_dps h dp in
  match find_dps graph _DummyIterDataPipe with
  | [] => [sharding_call wi dp]
  | [d] =>
      if queues_absent req res then []
      else map (sharding_call wi) (find_replicable_branches graph)
           ++ [Call_replace_dp graph d (dispatch_process_dp req res)]
  | _ => []
  end.

(** The calls of [dispatch_process_reset_fn]. *)
Definition dispatch_reset_calls (dp : Obj) (di : _DistInfo) : list (event Obj) :=
  [Call_manual_seed (shared_seed di);
   Call_apply_random_seed dp (seeded (shared_seed di))]
  ++ global_seed_calls (advance (seeded (shared_seed di)) (DrawGraphSeeds dp)).

End MoreObservations.

(* ===================================================================== *)
(** ** A concrete pipeline world                                          *)
(* ===================================================================== *)

(** A small instance of the collaborators, used to run the functions on
    concrete pipelines.  DataPipes are immutable trees here, so a rewritten
    graph is a new tree. *)
Module Sample.

Inductive queue := req_queue | res_queue.

Inductive obj :=
| IterableWrapper (id : Z)                    (* replicable source *)
| Mapper (id : Z) (source : obj)
| Zipper (id : Z) (left right : obj)
| Dummy (id : Z)                              (* _DummyIterDataPipe *)
| Consumer (id : Z) (datapipes : list (QueueWrapper queue))
                                              (* _IterateQueueDataPipes *)
| SequenceWrapper (id : Z)                    (* a MapDataPipe *)
| PyInt (n : Z).                              (* not a DataPipe *)

Definition obj_id (o : obj) : Z :=
  match o with
  | IterableWrapper i | Mapper i _ | Zipper i _ _ | Dummy i
  | Consumer i _ | SequenceWrapper i | PyInt i => i
  end.

(** [type(o) is cls] *)
Definition type_is (o : obj) (cls : py_class) : bool :=
  match o, cls with
  | Dummy _, _DummyIterDataPipe => true
  | Consumer _ _, _IterateQueueDataPipes => true
  | _, _ => false
  end.

Definition sample_isinstance (o : obj) (cls : py_class) : bool :=
  match o, cls with
  | (IterableWrapper _ | Mapper _ _ | Zipper _ _ _ | Dummy _ | Consumer _ _),
    IterDataPipe => true
  | SequenceWrapper _, MapDataPipe => true
  | _, _ => type_is o cls
  end.

Fixpoint item_of (o : obj) : graph_item obj :=
  match o with
  | Mapper i src => Item i o (Graph [item_of src])
  | Zipper i l r => Item i o (Graph [item_of l; item_of r])
  | _ => Item (obj_id o) o (Graph [])
  end.

Definition sample_traverse_dps (o : obj) : DataPipeGraph obj :=
  Graph [item_of o].

Fixpoint dps_of_graph (g : DataPipeGraph obj) : list obj :=
  match g with
  | Graph items =>
      (fix go (its : list (graph_item obj)) : list obj :=
         match its with
         | [] => []
         | it :: rest => dps_of_item it ++ go rest
         end) items
  end
with dps_of_item (it : graph_item obj) : list obj :=
  match it with
  | Item _ dp src => dp :: dps_of_graph src
  end.

Definition sample_find_dps (g : DataPipeGraph obj) (cls : py_class) : list obj :=
  List.filter (fun dp => type_is dp cls) (dps_of_graph g).

Fixpoint replicable (o : obj) : bool :=
  match o with
  | Dummy _ => false
  | Mapper _ src => replicable src
  | Zipper _ l r => replicable l && replicable r
  | _ => true
  end.

(** The frontmost DataPipes with no [Dummy] below them. *)
Fixpoint branches (o : obj) : list obj :=
  if replicable o then [o]
  else match o with
       | Mapper _ src => branches src
       | Zipper _ l r => branches l ++ branches r
       | _ => []
       end.

Definition sample_find_replicable_branches (g : DataPipeGraph obj) : list obj :=
  match g with
  | Graph (Item _ root _ :: _) => branches root
  | Graph [] => []
  end.

Fixpoint substitute (old_id : Z) (new : obj) (o : obj) : obj :=
  if obj_id o =? old_id then new
  else match o with
       | Mapper i src => Mapper i (substitute old_id new src)
       | Zipper i l r => Zipper i (substitute old_id new l) (substitute old_id new r)
       | _ => o
       end.

Definition sample_replace_dp (g : DataPipeGraph obj) (old new : obj)
  : DataPipeGraph obj :=
  match g with
  | Graph (Item _ root _ :: _) => sample_traverse_dps (substitute (obj_id old) new root)
  | Graph [] => Graph []
  end.

(** A deterministic stand-in for the generator's stream; the int32 draw is
    wrapped to the signed 32-bit range. *)
Definition sample_random_int_value (g : Generator obj) (dtype : option torch_dtype) : Z :=
  let x := initial_seed g * 1103515245 + 12345 + Z.of_nat (length (drawn g)) in
  match dtype with
  | Some torch_int32 => (x + 2 ^ 31) mod 2 ^ 32 - 2 ^ 31
  | None => x mod 2 ^ 63
  end.

#[export] Instance collaborators : Collaborators obj queue := {|
  traverse_dps := fun _ o => sample_traverse_dps o;
  find_dps := sample_find_dps;
  find_replicable_branches := sample_find_replicable_branches;
  replace_dp := fun _ g old new => sample_replace_dp g old new;
  isinstance := sample_isinstance;
  new_IterateQueueDataPipes := Consumer 1000;
  random_int_value := sample_random_int_value;
  default_rng_seed := 67280421310721;
  HAS_NUMPY := true
|}.

(** The same world without numpy. *)
Definition collaborators_no_numpy : Collaborators obj queue := {|
  traverse_dps := fun _ o => sample_traverse_dps o;
  find_dps := sample_find_dps;
  find_replicable_branches := sample_find_replicable_branches;
  replace_dp := fun _ g old new => sample_replace_dp g old new;
  isinstance := sample_isinstance;
  new_IterateQueueDataPipes := Consumer 1000;
  random_int_value := sample_random_int_value;
  default_rng_seed := 67280421310721;
  HAS_NUMPY := false
|}.

(** Pipelines. *)
Definition replicable_pipeline : obj := Mapper 1 (IterableWrapper 2).
Definition dispatching_pipeline : obj :=
  Zipper 1 (Mapper 2 (IterableWrapper 3)) (Dummy 4).
Definition two_dummies_pipeline : obj := Zipper 1 (Dummy 2) (Dummy 3).
Definition consuming_pipeline : obj :=
  Zipper 1 (Mapper 2 (IterableWrapper 3))
           (Consumer 1000 [mkQueueWrapper
              (mkProtocolClient (Some req_queue) (Some res_queue))]).
Definition two_consumers_pipeline : obj :=
  Zipper 1 (Consumer 1000 []) (Consumer 1001 []).

Definition worker0 : WorkerInfo := {| num_workers := 2; worker_id := 0 |}.
Definition worker1 : WorkerInfo := {| num_workers := 2; worker_id := 1 |}.
Definition rank1_of_2 : _DistInfo :=
  {| shared_seed := 100; world_size := 2; rank := 1 |}.

(** Custom functions: one that returns its argument, one that returns a
    non-DataPipe. *)
Definition keep : custom_fn obj := fun dp _ _ => dp.
Definition to_int : custom_fn obj := fun _ _ _ => PyInt 7.

End Sample.

(* ===================================================================== *)
(** ** velox_rt/column.py                                                 *)
(* ===================================================================== *)

Module ColumnFromVelox.
Section Column.

Local Open Scope string_scope.

(** [Scope], [Device], [DType] and [velox.BaseColumn] are opaque, and so
    is any attribute value [scope.Column] may have put on a column. *)
Context {Scope Device DType BaseColumn Other : Type}.

Inductive value :=
| VBaseColumn (data : BaseColumn)
| VBool (b : bool)
| VOther (v : Other).

(** Objects live in a store, by identity; an object is its [__dict__]. *)
Abbreviation object := (gmap string value).
Abbreviation store := (gmap positive object).

(** [scope.Column(dtype=dtype, to=device)]: the column and the store
    after the call. *)
Variable scope_Column : Scope -> DType -> Device -> store -> positive * store.

(** [o.name] *)
Definition getattr (o : positive) (name : string) (st : store) : option value :=
  match st !! o with
  | Some d => d !! name
  | None => None
  end.

(** [o.name = v]; an object not yet in the store starts with no
    attribute. *)
Definition setattr (o : positive) (name : string) (v : value) (st : store) : store :=
  <[o := <[name := v]> (default ∅ (st !! o))]> st.

(** [ColumnFromVelox.from_velox(scope, device, dtype, data, finialized)] *)
Definition from_velox (scope : Scope) (device : Device) (dtype : DType)
    (data : BaseColumn) (finialized : bool) (st : store) : positive * store :=
  let '(col, st) := scope_Column scope dtype device st in
  let st := setattr col "_data" (VBaseColumn data) st in
  let st := setattr col "_finialized" (VBool finialized) st in
  (col, st).

End Column.

(** A scope whose [Column] always builds the object at address 1, carrying
    its dtype; scopes, devices, dtypes and native columns are numbers. *)
Definition sample_scope_Column (scope dtype device : Z)
    (st : gmap positive (gmap string (@value Z Z)))
  : positive * gmap positive (gmap string (@value Z Z)) :=
  (1%positive, <[1%positive := {["dtype"%string := VOther dtype]}]> st).

(** A scope whose [Column] builds a new object each time, at the first
    address not in use. *)
Definition fresh_scope_Column (scope dtype device : Z)
    (st : gmap positive (gmap string (@value Z Z)))
  : positive * gmap positive (gmap string (@value Z Z)) :=
  let o := fresh (dom st) in
  (o, <[o := {["dtype"%string := VOther dtype]}]> st).

(** The names of the attributes of an object. *)
Definition attribute_names {BaseColumn Other : Type} (o : positive)
    (st : gmap positive (gmap string (@value BaseColumn Other))) : gset string :=
  dom (default ∅ (st !! o)).

End ColumnFromVelox.

(* ===================================================================== *)
(** ** Facts about the runs                                               *)
(* ===================================================================== *)

Section WorkerFacts.

Context {Obj Queue : Type} {env : Collaborators Obj Queue}.

Lemma skipn_length_app {A} (l1 l2 : list A) : skipn (length l1) (l1 ++ l2) = l2.
Proof. induction l1 as [|x l1 IH]; simpl; auto. Qed.

Lemma for_each_apply_sharding (xs : list Obj) (wi : WorkerInfo) (h : history Obj) :
  for_each xs (fun dp =>
    apply_sharding dp (num_workers wi) (worker_id wi) MULTIPROCESSING) h
  = (Returns tt, h ++ map (sharding_call wi) xs).
Proof.
  revert h. induction xs as [|x xs IH]; intros h; simpl.
  - unfold ret. now rewrite app_nil_r.
  - unfold bind, apply_sharding, call at 1. rewrite IH.
    now rewrite <- app_assoc.
Qed.

Section ShardGraph.
Variables (datapipe : Obj) (wi : WorkerInfo) (req res : option Queue).
Variable h : history Obj.

Let graph := traverse_dps h datapipe.
Let non_replicable_dp := find_dps graph _DummyIterDataPipe.

(** Path 1: no non-replicable DataPipe. *)
Lemma shard_graph_whole :
  non_replicable_dp = [] ->
  shard_graph datapipe wi req res h =
  (if queues_absent req res then Returns datapipe
   else Raises (AssertionError L81_queues_absent),
   h ++ [sharding_call wi datapipe]).
Proof.
  subst non_replicable_dp graph. intros Hnr.
  unfold shard_graph, bind, ask. rewrite Hnr. simpl.
  unfold apply_sharding, call, queues_absent, sharding_call.
  destruct (is_None req && is_None res); reflexivity.
Qed.

(** Path 2 stops at line 86 with more than one non-replicable DataPipe. *)
Lemma shard_graph_many :
  (1 < length non_replicable_dp)%nat ->
  shard_graph datapipe wi req res h =
  (Raises (AssertionError L86_single_non_replicable), h).
Proof.
  subst non_replicable_dp graph. intros Hlen.
  unfold shard_graph, bind, ask.
  destruct (find_dps (traverse_dps h datapipe) _DummyIterDataPipe)
    as [|d [|d' nr]]; simpl in *; try lia.
  reflexivity.
Qed.

(** Path 2 stops at line 87 when no queue was given. *)
Lemma shard_graph_no_queue (d : Obj) :
  non_replicable_dp = [d] ->
  queues_absent req res = true ->
  shard_graph datapipe wi req res h =
  (Raises (AssertionError L87_queues_given), h).
Proof.
  subst non_replicable_dp graph. intros Hnr Habs.
  unfold shard_graph, bind, ask. rewrite Hnr. simpl.
  unfold queues_absent in Habs. rewrite Habs. reflexivity.
Qed.

(** Path 2 in full. *)
Lemma shard_graph_rewrite (d : Obj) :
  non_replicable_dp = [d] ->
  queues_absent req res = false ->
  let h1 := h ++ map (sharding_call wi) (find_replicable_branches graph) in
  let graph' := replace_dp h1 graph d (dispatch_process_dp req res) in
  shard_graph datapipe wi req res h =
  (match graph_values graph' with
   | v :: _ => Returns (fst v)
   | [] => Raises IndexError
   end,
   h1 ++ [Call_replace_dp graph d (dispatch_process_dp req res)]).
Proof.
  subst non_replicable_dp graph. intros Hnr Habs. cbv zeta.
  unfold shard_graph, bind at 1, ask at 1. rewrite Hnr. simpl.
  unfold queues_absent in Habs. rewrite Habs. simpl.
  unfold bind at 1. simpl. unfold bind at 1. simpl.
  unfold bind at 1. rewrite for_each_apply_sharding.
  unfold bind, index0, call_replace_dp, ask, call, ret, bind, dispatch_process_dp.
  destruct (graph_values _); reflexivity.
Qed.

End ShardGraph.

(** [process_init_fn] without a custom function is [shard_graph]. *)
Lemma process_init_fn_None dp wi req res h :
  process_init_fn dp wi None req res h = shard_graph dp wi req res h.
Proof.
  unfold process_init_fn, bind, apply_custom_fn, ret.
  destruct (shard_graph dp wi req res h) as [[a|e] h']; reflexivity.
Qed.

(** The customisation step, run from a given state. *)
Lemma apply_custom_fn_Some f dp wi site h :
  apply_custom_fn (Some f) dp wi site h =
  (if is_datapipe (f dp wi h) then Returns (f dp wi h)
   else Raises (AssertionError site),
   h ++ [Call_custom_fn dp wi]).
Proof.
  unfold apply_custom_fn, bind, ask, call, assert, ret, raise.
  destruct (is_datapipe (f dp wi h)); reflexivity.
Qed.

Lemma _set_global_random_state_run g h :
  exists g', _set_global_random_state g h = (Returns g', h ++ global_seed_calls g).
Proof.
  unfold _set_global_random_state, global_seed_calls, generate_random_int.
  unfold bind, call, ret. cbv zeta.
  destruct HAS_NUMPY; eexists; rewrite <- !app_assoc; simpl; reflexivity.
Qed.

Lemma reseed_run dp wi di h :
  reseed dp wi di h = (Returns tt, h ++ reseed_calls dp wi di).
Proof.
  unfold reseed, reseed_calls, manual_seed, apply_random_seed, torch_Generator.
  unfold bind at 1. unfold bind at 1. unfold call at 1, ret at 1. cbv iota beta.
  unfold bind at 1. unfold bind at 1. unfold call at 1, ret at 1. cbv iota beta.
  unfold bind at 1. unfold bind at 1. unfold call at 1, ret at 1. cbv iota beta.
  unfold bind.
  destruct (_set_global_random_state_run
              (seeded (worker_seed wi di))
              (((h ++ [Call_manual_seed (shared_seed di)])
                  ++ [Call_apply_random_seed dp (seeded (shared_seed di))])
                  ++ [Call_manual_seed (worker_seed wi di)])) as [g' Hg].
  unfold seeded, worker_seed in *. simpl in *. rewrite Hg.
  unfold ret. f_equal. rewrite <- !app_assoc. reflexivity.
Qed.

Section ResetDispatch.
Variables (datapipe : Obj) (wi : WorkerInfo) (di : _DistInfo).
Variable h : history Obj.

Let consumers := find_dps (traverse_dps h datapipe) _IterateQueueDataPipes.

Lemma reset_dispatch_process_many :
  (1 < length consumers)%nat ->
  reset_dispatch_process datapipe wi di h =
  (Raises (AssertionError L162_single_consumer), h).
Proof.
  subst consumers. intros Hlen. unfold reset_dispatch_process, bind, ask.
  destruct (find_dps (traverse_dps h datapipe) _IterateQueueDataPipes)
    as [|c [|c' cs]]; simpl in *; try lia.
  reflexivity.
Qed.

Lemma reset_dispatch_process_run :
  (length consumers <= 1)%nat ->
  reset_dispatch_process datapipe wi di h =
  (Returns tt, h ++ reset_messages wi di consumers).
Proof.
  subst consumers. intros Hlen.
  unfold reset_dispatch_process, reset_messages, bind, ask.
  destruct (find_dps (traverse_dps h datapipe) _IterateQueueDataPipes)
    as [|c [|c' cs]]; simpl in *; try lia.
  - unfold ret. destruct (worker_id wi =? 0); now rewrite app_nil_r.
  - unfold call, ret. destruct (worker_id wi =? 0); [reflexivity|].
    now rewrite app_nil_r.
Qed.

(** The whole function, when the graph holds at most one consumer. *)
Lemma process_reset_fn_run custom :
  (length consumers <= 1)%nat ->
  process_reset_fn datapipe wi di custom h =
  apply_custom_fn custom datapipe wi L187_reset_returns_datapipe
    (h ++ reset_messages wi di consumers ++ reseed_calls datapipe wi di).
Proof.
  intros Hlen. unfold process_reset_fn. unfold bind at 1.
  rewrite reset_dispatch_process_run by exact Hlen.
  unfold bind at 1. rewrite reseed_run. now rewrite <- app_assoc.
Qed.

Lemma process_reset_fn_many custom :
  (1 < length consumers)%nat ->
  process_reset_fn datapipe wi di custom h =
  (Raises (AssertionError L162_single_consumer), h).
Proof.
  intros Hlen. unfold process_reset_fn. unfold bind at 1.
  now rewrite reset_dispatch_process_many by exact Hlen.
Qed.

(** The events of the run, in order. *)
Lemma process_reset_fn_events custom :
  (length consumers <= 1)%nat ->
  events_of (process_reset_fn datapipe wi di custom) h =
  reset_messages wi di consumers ++ reseed_calls datapipe wi di
    ++ custom_calls custom datapipe wi.
Proof.
  intros Hlen. unfold events_of. rewrite process_reset_fn_run by exact Hlen.
  destruct custom as [f|].
  - rewrite apply_custom_fn_Some. cbn [snd custom_calls].
    rewrite <- !app_assoc. apply skipn_length_app.
  - cbn [apply_custom_fn ret snd custom_calls]. rewrite app_nil_r.
    apply skipn_length_app.
Qed.

End ResetDispatch.

(* =================================================================== *)
(** ** [process_init_fn]: the two sharding paths and their assertions    *)
(* =================================================================== *)

Lemma skipn_length_nil {A} (l : list A) : skipn (length l) l = [].
Proof. induction l; simpl; auto. Qed.

Lemma process_init_fn_bind dp wi custom req res h :
  process_init_fn dp wi custom req res h =
  match shard_graph dp wi req res h with
  | (Returns d, h') => apply_custom_fn custom d wi L103_init_returns_datapipe h'
  | (Raises e, h') => (Raises e, h')
  end.
Proof. reflexivity. Qed.

Lemma apply_custom_fn_events custom d wi site h :
  snd (apply_custom_fn custom d wi site h) = h ++ custom_calls custom d wi.
Proof.
  destruct custom as [f|].
  - now rewrite apply_custom_fn_Some.
  - simpl. now rewrite app_nil_r.
Qed.

Lemma apply_custom_fn_passes custom d wi h :
  passes_branch_checks
    (fst (apply_custom_fn custom d wi L103_init_returns_datapipe h)) = true.
Proof.
  destruct custom as [f|]; [|reflexivity].
  rewrite apply_custom_fn_Some. simpl.
  destruct (is_datapipe (f d wi h)); reflexivity.
Qed.

Lemma custom_calls_are_custom custom (d : Obj) wi :
  only_custom_calls (custom_calls custom d wi) = true.
Proof. destruct custom; reflexivity. Qed.

Lemma exactly_one_queue_given (req res : option Queue) :
  exactly_one_queue req res = true -> queues_absent req res = false.
Proof. destruct req, res; cbv; intros; congruence. Qed.

(** The run on path 1. *)
Lemma process_init_fn_whole dp wi custom req res h :
  find_dps (traverse_dps h dp) _DummyIterDataPipe = [] ->
  process_init_fn dp wi custom req res h =
  if queues_absent req res then
    apply_custom_fn custom dp wi L103_init_returns_datapipe
                    (h ++ [sharding_call wi dp])
  else (Raises (AssertionError L81_queues_absent), h ++ [sharding_call wi dp]).
Proof.
  intros Hnr. rewrite process_init_fn_bind, shard_graph_whole by exact Hnr.
  destruct (queues_absent req res); reflexivity.
Qed.

(** The run on path 2. *)
Lemma process_init_fn_rewrite dp wi custom req res h d :
  find_dps (traverse_dps h dp) _DummyIterDataPipe = [d] ->
  queues_absent req res = false ->
  let graph := traverse_dps h dp in
  let h1 := h ++ map (sharding_call wi) (find_replicable_branches graph) in
  let graph' := replace_dp h1 graph d (dispatch_process_dp req res) in
  let h2 := h1 ++ [Call_replace_dp graph d (dispatch_process_dp req res)] in
  process_init_fn dp wi custom req res h =
  match graph_values graph' with
  | v :: _ => apply_custom_fn custom (fst v) wi L103_init_returns_datapipe h2
  | [] => (Raises IndexError, h2)
  end.
Proof.
  intros Hnr Hq. cbv zeta.
  rewrite process_init_fn_bind, (shard_graph_rewrite _ _ _ _ _ d Hnr Hq).
  cbv zeta. destruct (graph_values _); reflexivity.
Qed.

Lemma process_init_fn_rewrite_passes dp wi custom req res h d :
  find_dps (traverse_dps h dp) _DummyIterDataPipe = [d] ->
  queues_absent req res = false ->
  passes_branch_checks (fst (process_init_fn dp wi custom req res h)) = true.
Proof.
  intros Hnr Hq. rewrite (process_init_fn_rewrite _ _ _ _ _ _ d Hnr Hq).
  cbv zeta. destruct (graph_values _); [reflexivity|].
  apply apply_custom_fn_passes.
Qed.

Lemma process_init_fn_rewrite_events dp wi custom req res h d :
  find_dps (traverse_dps h dp) _DummyIterDataPipe = [d] ->
  queues_absent req res = false ->
  let graph := traverse_dps h dp in
  exists tail,
    events_of (process_init_fn dp wi custom req res) h =
      map (sharding_call wi) (find_replicable_branches graph)
      ++ Call_replace_dp graph d (dispatch_process_dp req res) :: tail
    /\ only_custom_calls tail = true.
Proof.
  intros Hnr Hq. cbv zeta. unfold events_of.
  rewrite (process_init_fn_rewrite _ _ _ _ _ _ d Hnr Hq). cbv zeta.
  destruct (graph_values _) as [|v vs].
  - exists []. split; [|reflexivity]. cbn [snd].
    rewrite <- app_assoc. apply skipn_length_app.
  - exists (custom_calls custom (fst v) wi). split.
    + rewrite apply_custom_fn_events, <- !app_assoc. apply skipn_length_app.
    + apply custom_calls_are_custom.
Qed.

Lemma process_init_fn_many dp wi custom req res h :
  (1 < length (find_dps (traverse_dps h dp) _DummyIterDataPipe))%nat ->
  process_init_fn dp wi custom req res h =
  (Raises (AssertionError L86_single_non_replicable), h).
Proof.
  intros Hlen. now rewrite process_init_fn_bind, shard_graph_many by exact Hlen.
Qed.

Lemma process_init_fn_no_queue dp wi custom req res h d :
  find_dps (traverse_dps h dp) _DummyIterDataPipe = [d] ->
  queues_absent req res = true ->
  process_init_fn dp wi custom req res h =
  (Raises (AssertionError L87_queues_given), h).
Proof.
  intros Hnr Hq.
  now rewrite process_init_fn_bind, (shard_graph_no_queue _ _ _ _ _ d Hnr Hq).
Qed.

(** A run that fails line 86 or 87 leaves the state as it found it. *)
Lemma process_init_fn_aborted dp wi custom req res h :
  find_dps (traverse_dps h dp) _DummyIterDataPipe <> [] ->
  (1 < length (find_dps (traverse_dps h dp) _DummyIterDataPipe))%nat
  \/ queues_absent req res = true ->
  exists site,
    process_init_fn dp wi custom req res h = (Raises (AssertionError site), h).
Proof.
  intros Hne Hbad.
  destruct (find_dps (traverse_dps h dp) _DummyIterDataPipe)
    as [|d [|d' nr]] eqn:Hnr; [congruence| |].
  - destruct Hbad as [Hlen|Hq]; [simpl in Hlen; lia|].
    exists L87_queues_given. now apply (process_init_fn_no_queue _ _ _ _ _ _ d).
  - exists L86_single_non_replicable.
    apply process_init_fn_many. rewrite Hnr. simpl. lia.
Qed.

(** C2, as the code has it: with exactly one of the two dispatch queues
    given, [process_init_fn] raises an assertion failure when the graph
    does not hold exactly one non-replicable DataPipe (line 81 with none,
    line 86 with several).  With exactly one, the guard of line 87, "not
    both absent", is satisfied: the run gets past the three assertions on
    branches and queues and rewrites the graph with a stand-in built from
    the two arguments as given. *)
Theorem process_init_fn_one_queue dp wi custom req res h :
  exactly_one_queue req res = true ->
  let graph := traverse_dps h dp in
  let non_replicable_dp := find_dps graph _DummyIterDataPipe in
  let run := process_init_fn dp wi custom req res in
  (length non_replicable_dp <> 1%nat -> raises_assertion (fst (run h))) /\
  (forall d, non_replicable_dp = [d] ->
     passes_branch_checks (fst (run h)) = true /\
     In (Call_replace_dp graph d (dispatch_process_dp req res)) (events_of run h)).
Proof.
  intros Hone. apply exactly_one_queue_given in Hone. cbv zeta. split.
  - intros Hlen.
    destruct (find_dps (traverse_dps h dp) _DummyIterDataPipe)
      as [|d [|d' nr]] eqn:Hnr; simpl in Hlen; try congruence.
    + rewrite process_init_fn_whole, Hone by exact Hnr.
      now exists L81_queues_absent.
    + rewrite process_init_fn_many by (rewrite Hnr; simpl; lia).
      now exists L86_single_non_replicable.
  - intros d Hnr. split.
    + now apply (process_init_fn_rewrite_passes _ _ _ _ _ _ d).
    + destruct (process_init_fn_rewrite_events dp wi custom req res h d Hnr Hone)
        as [tail [Hev _]].
      rewrite Hev. apply in_or_app. right. now left.
Qed.

(** C3: [process_init_fn] raises an assertion failure whenever a queue is
    given but the graph holds no non-replicable DataPipe (line 81), and
    whenever the graph holds more than one (line 86); it gets past the
    assertions on branches and queues exactly with one non-replicable
    DataPipe and queues given, or none and queues absent.  "Given" is the
    test of line 87: not both absent. *)
Theorem process_init_fn_branch_checks dp wi custom req res h :
  let non_replicable_dp := find_dps (traverse_dps h dp) _DummyIterDataPipe in
  let r := fst (process_init_fn dp wi custom req res h) in
  (queues_absent req res = false -> non_replicable_dp = [] ->
     r = Raises (AssertionError L81_queues_absent)) /\
  ((1 < length non_replicable_dp)%nat ->
     r = Raises (AssertionError L86_single_non_replicable)) /\
  (passes_branch_checks r = true <->
     (length non_replicable_dp = 1%nat /\ queues_absent req res = false) \/
     (length non_replicable_dp = 0%nat /\ queues_absent req res = true)).
Proof.
  cbv zeta. repeat split.
  - intros Hq Hnr. now rewrite process_init_fn_whole, Hq by exact Hnr.
  - intros Hlen. now rewrite process_init_fn_many by exact Hlen.
  - destruct (find_dps (traverse_dps h dp) _DummyIterDataPipe)
      as [|d [|d' nr]] eqn:Hnr; destruct (queues_absent req res) eqn:Hq.
    + intros _. right. now split.
    + rewrite process_init_fn_whole, Hq by exact Hnr. discriminate.
    + rewrite (process_init_fn_no_queue _ _ _ _ _ _ d Hnr Hq). discriminate.
    + intros _. left. now split.
    + rewrite process_init_fn_many by (rewrite Hnr; simpl; lia). discriminate.
    + rewrite process_init_fn_many by (rewrite Hnr; simpl; lia). discriminate.
  - intros [[Hlen Hq]|[Hlen Hq]];
      destruct (find_dps (traverse_dps h dp) _DummyIterDataPipe)
        as [|d [|d' nr]] eqn:Hnr; simpl in Hlen; try congruence.
    + now apply (process_init_fn_rewrite_passes _ _ _ _ _ _ d).
    + rewrite process_init_fn_whole, Hq by exact Hnr.
      apply apply_custom_fn_passes.
Qed.

(** C4: which sharding path a call of [process_init_fn] takes depends only
    on whether [find_dps] finds a [_DummyIterDataPipe] in the traversed
    graph.  With none, the calls of the run are one [apply_sharding] on the
    whole DataPipe, and no [replace_dp]: the DataPipe handed on is the one
    passed in.  With one (and queues given, as line 87 requires),
    [apply_sharding] is called on the replicable branches, one call each,
    and then [replace_dp] puts in place of the non-replicable DataPipe an
    [_IterateQueueDataPipes] over a [QueueWrapper] of a protocol client on
    the two queues passed in.  A call that fails line 86 or 87 has made
    neither kind of call.  After the path, the only call left is the one
    to the custom function. *)
Theorem process_init_fn_sharding_paths dp wi custom req res h :
  let graph := traverse_dps h dp in
  let non_replicable_dp := find_dps graph _DummyIterDataPipe in
  let run := process_init_fn dp wi custom req res in
  (non_replicable_dp = [] ->
     (exists tail,
        events_of run h = sharding_call wi dp :: tail
        /\ only_custom_calls tail = true)
     /\ (queues_absent req res = true ->
           run h = apply_custom_fn custom dp wi L103_init_returns_datapipe
                     (h ++ [sharding_call wi dp]))) /\
  (forall d, non_replicable_dp = [d] -> queues_absent req res = false ->
     exists tail,
       events_of run h =
         map (sharding_call wi) (find_replicable_branches graph)
         ++ Call_replace_dp graph d
              (new_IterateQueueDataPipes
                 [mkQueueWrapper (mkProtocolClient req res)]) :: tail
       /\ only_custom_calls tail = true) /\
  (non_replicable_dp <> [] ->
     (1 < length non_replicable_dp)%nat \/ queues_absent req res = true ->
     raises_assertion (fst (run h)) /\ events_of run h = []).
Proof.
  cbv zeta. split; [|split].
  - intros Hnr. split.
    + unfold events_of. rewrite process_init_fn_whole by exact Hnr.
      destruct (queues_absent req res).
      * exists (custom_calls custom dp wi). split.
        -- rewrite apply_custom_fn_events, <- app_assoc. apply skipn_length_app.
        -- apply custom_calls_are_custom.
      * exists []. split; [|reflexivity]. apply skipn_length_app.
    + intros Hq. rewrite process_init_fn_whole by exact Hnr. now rewrite Hq.
  - intros d Hnr Hq.
    exact (process_init_fn_rewrite_events dp wi custom req res h d Hnr Hq).
  - intros Hnr Hbad.
    destruct (process_init_fn_aborted dp wi custom req res h Hnr Hbad)
      as [site Hrun].
    unfold events_of. rewrite Hrun. split.
    + now exists site.
    + apply skipn_length_nil.
Qed.

(* =================================================================== *)
(** ** [process_reset_fn]: reset message and seeds                      *)
(* =================================================================== *)

Lemma events_of_aborted dp wi di custom h :
  (1 < length (find_dps (traverse_dps h dp) _IterateQueueDataPipes))%nat ->
  events_of (process_reset_fn dp wi di custom) h = [].
Proof.
  intros Hlen. unfold events_of.
  rewrite process_reset_fn_many by exact Hlen. apply skipn_length_nil.
Qed.

(** Unfolds the events of a run that reaches the reseeding and splits on
    what the list depends on. *)
Ltac reset_events Hlen :=
  rewrite process_reset_fn_events by exact Hlen;
  unfold reset_messages, reseed_calls, global_seed_calls, custom_calls.

Lemma reset_epochs_run dp wi di custom h :
  let consumers := find_dps (traverse_dps h dp) _IterateQueueDataPipes in
  (length consumers <= 1)%nat ->
  reset_epochs (events_of (process_reset_fn dp wi di custom) h) =
  if worker_id wi =? 0 then
    map (fun c => (c, partial_dispatch_process_reset_fn di)) consumers
  else [].
Proof.
  cbv zeta. intros Hlen. reset_events Hlen.
  destruct (find_dps (traverse_dps h dp) _IterateQueueDataPipes)
    as [|c [|c' cs]]; simpl in Hlen; try lia;
    destruct (worker_id wi =? 0), HAS_NUMPY, custom; reflexivity.
Qed.

Lemma graph_seedings_run dp wi di custom h :
  (length (find_dps (traverse_dps h dp) _IterateQueueDataPipes) <= 1)%nat ->
  graph_seedings (events_of (process_reset_fn dp wi di custom) h) =
  [(dp, seeded (shared_seed di))].
Proof.
  intros Hlen. reset_events Hlen.
  destruct (find_dps (traverse_dps h dp) _IterateQueueDataPipes)
    as [|c [|c' cs]]; simpl in Hlen; try lia;
    destruct (worker_id wi =? 0), HAS_NUMPY, custom; reflexivity.
Qed.

Lemma generator_seeds_run dp wi di custom h :
  (length (find_dps (traverse_dps h dp) _IterateQueueDataPipes) <= 1)%nat ->
  generator_seeds (events_of (process_reset_fn dp wi di custom) h) =
  [shared_seed di; worker_seed wi di].
Proof.
  intros Hlen. reset_events Hlen.
  destruct (find_dps (traverse_dps h dp) _IterateQueueDataPipes)
    as [|c [|c' cs]]; simpl in Hlen; try lia;
    destruct (worker_id wi =? 0), HAS_NUMPY, custom; reflexivity.
Qed.

Lemma global_seedings_run dp wi di custom h :
  (length (find_dps (traverse_dps h dp) _IterateQueueDataPipes) <= 1)%nat ->
  global_seedings (events_of (process_reset_fn dp wi di custom) h) =
  global_seed_calls (seeded (worker_seed wi di)).
Proof.
  intros Hlen. reset_events Hlen.
  destruct (find_dps (traverse_dps h dp) _IterateQueueDataPipes)
    as [|c [|c' cs]]; simpl in Hlen; try lia;
    destruct (worker_id wi =? 0), HAS_NUMPY, custom; reflexivity.
Qed.

(** A run that derives a worker seed derives the one of line 180, and a run
    derives one as soon as it gets past line 162. *)
Lemma derived_worker_seed_reached dp wi di custom h :
  (length (find_dps (traverse_dps h dp) _IterateQueueDataPipes) <= 1)%nat ->
  derived_worker_seed (events_of (process_reset_fn dp wi di custom) h) =
  Some (worker_seed wi di).
Proof.
  intros Hlen. unfold derived_worker_seed.
  now rewrite generator_seeds_run by exact Hlen.
Qed.

Lemma derived_worker_seed_run dp wi di custom h s :
  derived_worker_seed (events_of (process_reset_fn dp wi di custom) h) = Some s ->
  s = worker_seed wi di.
Proof.
  destruct (le_lt_dec (length (find_dps (traverse_dps h dp) _IterateQueueDataPipes)) 1)
    as [Hlen|Hlen].
  - rewrite derived_worker_seed_reached by exact Hlen. congruence.
  - rewrite events_of_aborted by exact Hlen. discriminate.
Qed.

Lemma worker_seed_eq wi di :
  worker_seed wi di = shared_seed di + worker_id wi * world_size di + rank di.
Proof. unfold worker_seed, global_worker_id. lia. Qed.

(** C1, as the code has it: in a run of [process_reset_fn] that gets past
    line 162, the DataPipe graph is seeded ([apply_random_seed]) from a
    generator seeded with the shared seed itself, the same for every worker
    and rank.  Only then is the generator given the seed of the worker and
    rank, shared_seed + worker_id * world_size + rank, and the process-wide
    generators of [random], [torch] and (when present) [numpy] are seeded
    with the integers drawn, in this order, from that generator. *)
Theorem process_reset_fn_seeding dp wi di custom h :
  let consumers := find_dps (traverse_dps h dp) _IterateQueueDataPipes in
  (length consumers <= 1)%nat ->
  let evs := events_of (process_reset_fn dp wi di custom) h in
  let w := shared_seed di + worker_id wi * world_size di + rank di in
  evs = reset_messages wi di consumers
        ++ [Call_manual_seed (shared_seed di);
            Call_apply_random_seed dp (seeded (shared_seed di));
            Call_manual_seed w]
        ++ global_seed_calls (seeded w)
        ++ custom_calls custom dp wi
  /\ graph_seeds evs = [shared_seed di]
  /\ derived_worker_seed evs = Some w
  /\ global_seedings evs = global_seed_calls (seeded w).
Proof.
  cbv zeta. intros Hlen. rewrite <- worker_seed_eq. repeat split.
  - rewrite process_reset_fn_events by exact Hlen.
    unfold reseed_calls. now rewrite <- !app_assoc.
  - unfold graph_seeds. now rewrite graph_seedings_run by exact Hlen.
  - now rewrite derived_worker_seed_reached by exact Hlen.
  - now rewrite global_seedings_run by exact Hlen.
Qed.

(** C5: in a run of [process_reset_fn], a worker whose [worker_id] is not 0
    sends no [reset_epoch]; worker 0 sends exactly one when the graph holds
    a queue-backed dispatch consumer ([find_dps] returns one; line 162 admits
    no more), to that consumer and with the dispatch reset function closed
    over [dist_info], and none when there is no consumer.  Whatever its
    [worker_id], a worker that gets past line 162 sets its process-wide
    random states from the generator seeded with its own worker seed. *)
Theorem reset_epoch_sent_once_by_worker_0 dp wi di custom h :
  let consumers := find_dps (traverse_dps h dp) _IterateQueueDataPipes in
  let evs := events_of (process_reset_fn dp wi di custom) h in
  (worker_id wi <> 0 -> reset_epochs evs = []) /\
  (forall c, worker_id wi = 0 -> consumers = [c] ->
     reset_epochs evs = [(c, partial_dispatch_process_reset_fn di)]) /\
  (consumers = [] -> reset_epochs evs = []) /\
  ((length consumers <= 1)%nat ->
     global_seedings evs = global_seed_calls (seeded (worker_seed wi di))
     /\ derived_worker_seed evs = Some (worker_seed wi di)).
Proof.
  cbv zeta. split; [|split; [|split]].
  - intros Hid.
    destruct (le_lt_dec (length (find_dps (traverse_dps h dp) _IterateQueueDataPipes)) 1)
      as [Hlen|Hlen].
    + rewrite reset_epochs_run by exact Hlen.
      apply Z.eqb_neq in Hid. now rewrite Hid.
    + now rewrite events_of_aborted by exact Hlen.
  - intros c Hid Hc.
    rewrite reset_epochs_run by (rewrite Hc; simpl; lia).
    rewrite Hc, Hid. reflexivity.
  - intros Hc. rewrite reset_epochs_run by (rewrite Hc; simpl; lia).
    rewrite Hc. now destruct (worker_id wi =? 0).
  - intros Hlen. split.
    + now apply global_seedings_run.
    + now apply derived_worker_seed_reached.
Qed.

(* =================================================================== *)
(** ** The custom function and its return value                         *)
(* =================================================================== *)

Lemma process_reset_fn_bind dp wi di custom h :
  process_reset_fn dp wi di custom h =
  match process_reset_fn dp wi di None h with
  | (Returns _, h') =>
      apply_custom_fn custom dp wi L187_reset_returns_datapipe h'
  | (Raises e, h') => (Raises e, h')
  end.
Proof.
  unfold process_reset_fn, bind.
  destruct (reset_dispatch_process dp wi di h) as [[[]|e] h1]; [|reflexivity].
  destruct (reseed dp wi di h1) as [[[]|e] h2]; reflexivity.
Qed.

Lemma process_reset_fn_None_returns dp wi di h dp' h' :
  process_reset_fn dp wi di None h = (Returns dp', h') -> dp' = dp.
Proof.
  unfold process_reset_fn, bind.
  destruct (reset_dispatch_process dp wi di h) as [[[]|e] h1]; [|discriminate].
  destruct (reseed dp wi di h1) as [[[]|e] h2]; [|discriminate].
  simpl. unfold ret. congruence.
Qed.

(** C8: when [process_init_fn] or [process_reset_fn] calls the custom
    function it was given (that is, when the same call without a custom
    function returns, with DataPipe [dp'] in state [h']), the value the
    custom function returns is tested with
    [isinstance(_, (IterDataPipe, MapDataPipe))]: if the test fails the
    call raises an assertion failure (line 103, line 187), otherwise the
    returned value is the result of the call. *)
Theorem custom_fn_result_checked dp wi di f req res h :
  (forall dp' h',
     process_init_fn dp wi None req res h = (Returns dp', h') ->
     let returned := f dp' wi h' in
     process_init_fn dp wi (Some f) req res h =
     (if isinstance returned IterDataPipe || isinstance returned MapDataPipe
      then Returns returned
      else Raises (AssertionError L103_init_returns_datapipe),
      h' ++ [Call_custom_fn dp' wi])) /\
  (forall dp' h',
     process_reset_fn dp wi di None h = (Returns dp', h') ->
     let returned := f dp' wi h' in
     process_reset_fn dp wi di (Some f) h =
     (if isinstance returned IterDataPipe || isinstance returned MapDataPipe
      then Returns returned
      else Raises (AssertionError L187_reset_returns_datapipe),
      h' ++ [Call_custom_fn dp' wi])).
Proof.
  split; intros dp' h' Hnone; cbv zeta.
  - rewrite process_init_fn_None in Hnone.
    rewrite process_init_fn_bind, Hnone. apply apply_custom_fn_Some.
  - pose proof (process_reset_fn_None_returns _ _ _ _ _ _ Hnone) as ->.
    rewrite process_reset_fn_bind, Hnone. apply apply_custom_fn_Some.
Qed.

(* =================================================================== *)
(** ** [_set_global_random_state]: the numpy seed                       *)
(* =================================================================== *)

Lemma _set_global_random_state_events g h :
  events_of (_set_global_random_state g) h = global_seed_calls g.
Proof.
  unfold events_of. destruct (_set_global_random_state_run g h) as [g' ->].
  apply skipn_length_app.
Qed.

(** C9: when numpy is present and the third draw of
    [_set_global_random_state] is a signed 32-bit integer, the one seed
    given to [numpy.random.seed] lies in [0, 2^32): a negative draw is
    mapped to 2^32 + draw, any other draw is passed on as it is. *)
Theorem numpy_seed_is_uint32 g h :
  HAS_NUMPY = true ->
  let np_seed :=
    random_int_value (advance (advance g (DrawInt None)) (DrawInt None))
                     (Some torch_int32) in
  - 2 ^ 31 <= np_seed < 2 ^ 31 ->
  exists seed,
    numpy_seeds (events_of (_set_global_random_state g) h) = [seed]
    /\ 0 <= seed < 2 ^ 32
    /\ (np_seed < 0 -> seed = 2 ^ 32 + np_seed)
    /\ (0 <= np_seed -> seed = np_seed).
Proof.
  intros Hnumpy np_seed Hrange. subst np_seed.
  rewrite _set_global_random_state_events.
  unfold global_seed_calls. rewrite Hnumpy. cbv zeta.
  set (np_seed := random_int_value _ (Some torch_int32)) in *.
  exists (if np_seed <? 0 then 2 ^ 32 + np_seed else np_seed).
  split; [reflexivity|].
  destruct (Z.ltb_spec np_seed 0); repeat split; lia.
Qed.

End WorkerFacts.

(* ===================================================================== *)
(** ** Worker seeds across runs                                           *)
(* ===================================================================== *)

(** C6: the worker seed a run of [process_reset_fn] derives is
    S + worker_id * world_size + rank, a function of (S, worker_id,
    world_size, rank) alone: two runs with these four inputs equal derive the
    same seed, whatever the DataPipe, the pool size, the custom function, the
    state they start from and the collaborators they run against. *)
Theorem worker_seed_reproducible
    {Obj1 Queue1 Obj2 Queue2 : Type}
    (env1 : Collaborators Obj1 Queue1) (env2 : Collaborators Obj2 Queue2)
    (dp1 : Obj1) (dp2 : Obj2) (n1 n2 : Z)
    (custom1 : option (custom_fn Obj1)) (custom2 : option (custom_fn Obj2))
    (h1 : history Obj1) (h2 : history Obj2)
    (seed wid ws rk s1 s2 : Z) :
  let di := {| shared_seed := seed; world_size := ws; rank := rk |} in
  derived_worker_seed
    (events_of (process_reset_fn (env := env1) dp1 {| num_workers := n1; worker_id := wid |}
                                 di custom1) h1) = Some s1 ->
  derived_worker_seed
    (events_of (process_reset_fn (env := env2) dp2 {| num_workers := n2; worker_id := wid |}
                                 di custom2) h2) = Some s2 ->
  s1 = s2 /\ s1 = seed + wid * ws + rk.
Proof.
  cbv zeta. intros H1 H2.
  apply derived_worker_seed_run in H1. apply derived_worker_seed_run in H2.
  rewrite worker_seed_eq in H1, H2. simpl in H1, H2. split; congruence.
Qed.

(** C7: for one shared seed and one world size, two runs of
    [process_reset_fn] whose (worker_id, rank) pairs differ, with both ranks
    in [0, world_size), derive different worker seeds.  No bound on the
    worker ids is needed. *)
Theorem worker_seeds_distinct
    {Obj1 Queue1 Obj2 Queue2 : Type}
    (env1 : Collaborators Obj1 Queue1) (env2 : Collaborators Obj2 Queue2)
    (dp1 : Obj1) (dp2 : Obj2) (n : Z)
    (custom1 : option (custom_fn Obj1)) (custom2 : option (custom_fn Obj2))
    (h1 : history Obj1) (h2 : history Obj2)
    (seed ws wid1 rk1 wid2 rk2 s1 s2 : Z) :
  0 <= rk1 < ws -> 0 <= rk2 < ws ->
  (wid1, rk1) <> (wid2, rk2) ->
  derived_worker_seed
    (events_of (process_reset_fn (env := env1) dp1 {| num_workers := n; worker_id := wid1 |}
                  {| shared_seed := seed; world_size := ws; rank := rk1 |} custom1) h1)
    = Some s1 ->
  derived_worker_seed
    (events_of (process_reset_fn (env := env2) dp2 {| num_workers := n; worker_id := wid2 |}
                  {| shared_seed := seed; world_size := ws; rank := rk2 |} custom2) h2)
    = Some s2 ->
  s1 <> s2.
Proof.
  intros Hrk1 Hrk2 Hne H1 H2.
  apply derived_worker_seed_run in H1. apply derived_worker_seed_run in H2.
  rewrite worker_seed_eq in H1, H2. simpl in H1, H2. subst s1 s2.
  intros Heq. apply Hne.
  assert (Hwid : wid1 = wid2) by nia.
  subst wid2. f_equal. lia.
Qed.

(* ===================================================================== *)
(** ** The column factory                                                 *)
(* ===================================================================== *)

Section ColumnFacts.

Import ColumnFromVelox.
Local Open Scope string_scope.

Context {Scope Device DType BaseColumn Other : Type}.
Variable scope_Column :
  Scope -> DType -> Device ->
  gmap positive (gmap string (@value BaseColumn Other)) ->
  positive * gmap positive (gmap string (@value BaseColumn Other)).

Lemma getattr_setattr_eq o name v (st : gmap positive (gmap string (@value BaseColumn Other))) :
  getattr o name (setattr o name v st) = Some v.
Proof.
  unfold getattr, setattr. rewrite lookup_insert_eq. apply lookup_insert_eq.
Qed.

Lemma getattr_setattr_ne o name name' v
    (st : gmap positive (gmap string (@value BaseColumn Other))) :
  name <> name' ->
  getattr o name' (setattr o name v st) = getattr o name' st.
Proof.
  intros Hne. unfold getattr, setattr. rewrite lookup_insert_eq.
  rewrite lookup_insert_ne by exact Hne.
  destruct (st !! o); [reflexivity|]. simpl. apply lookup_empty.
Qed.

Lemma lookup_setattr_ne o o' name v
    (st : gmap positive (gmap string (@value BaseColumn Other))) :
  o <> o' -> setattr o name v st !! o' = st !! o'.
Proof. intros Hne. unfold setattr. now rewrite lookup_insert_ne. Qed.

(** C10: [from_velox] returns the very column [scope.Column(dtype=dtype,
    to=device)] returned, with [_data] holding the given data and
    [_finialized] the given flag; its other attributes, and every other
    object, are as [scope.Column] left them. *)
Theorem from_velox_sets_fields scope device dtype data finialized st :
  let col := fst (scope_Column scope dtype device st) in
  let st0 := snd (scope_Column scope dtype device st) in
  let st' := snd (from_velox scope_Column scope device dtype data finialized st) in
  fst (from_velox scope_Column scope device dtype data finialized st) = col
  /\ getattr col "_data" st' = Some (VBaseColumn data)
  /\ getattr col "_finialized" st' = Some (VBool finialized)
  /\ (forall name, name <> "_data" -> name <> "_finialized" ->
        getattr col name st' = getattr col name st0)
  /\ (forall o, o <> col -> st' !! o = st0 !! o).
Proof.
  cbv zeta. unfold from_velox.
  destruct (scope_Column scope dtype device st) as [col st0]. simpl.
  repeat split.
  - rewrite getattr_setattr_ne by discriminate. apply getattr_setattr_eq.
  - apply getattr_setattr_eq.
  - intros name Hd Hf.
    rewrite getattr_setattr_ne by congruence.
    now rewrite getattr_setattr_ne by congruence.
  - intros o Ho. rewrite !lookup_setattr_ne by congruence. reflexivity.
Qed.

End ColumnFacts.

Example from_velox_on_empty_store :
  let r := ColumnFromVelox.from_velox ColumnFromVelox.sample_scope_Column
             0 0 7 42 true ∅ in
  fst r = 1%positive
  /\ ColumnFromVelox.getattr 1 "_data" (snd r)
       = Some (ColumnFromVelox.VBaseColumn 42)
  /\ ColumnFromVelox.getattr 1 "_finialized" (snd r)
       = Some (ColumnFromVelox.VBool true)
  /\ ColumnFromVelox.getattr 1 "dtype" (snd r)
       = Some (ColumnFromVelox.VOther 7).
Proof. vm_compute. repeat split; reflexivity. Qed.

(* ===================================================================== *)
(** ** The statements on concrete pipelines                               *)
(* ===================================================================== *)

Section OnSamples.

Import Sample.

Example init_replicable_pipeline :
  process_init_fn replicable_pipeline worker1 None None None [] =
  (Returns replicable_pipeline,
   [Call_apply_sharding replicable_pipeline 2 1 MULTIPROCESSING]).
Proof. reflexivity. Qed.

Example init_dispatching_pipeline :
  process_init_fn dispatching_pipeline worker1 None
                  (Some req_queue) (Some res_queue) [] =
  (Returns consuming_pipeline,
   [Call_apply_sharding (Mapper 2 (IterableWrapper 3)) 2 1 MULTIPROCESSING;
    Call_replace_dp (sample_traverse_dps dispatching_pipeline) (Dummy 4)
      (Consumer 1000 [mkQueueWrapper
         (mkProtocolClient (Some req_queue) (Some res_queue))])]).
Proof. reflexivity. Qed.

Example init_dispatching_pipeline_without_queues :
  process_init_fn dispatching_pipeline worker1 None None None [] =
  (Raises (AssertionError L87_queues_given), []).
Proof. reflexivity. Qed.

Example reset_consuming_pipeline_worker0 :
  process_reset_fn consuming_pipeline worker0 rank1_of_2 None [] =
  (Returns consuming_pipeline,
   [Call_reset_epoch
      (Consumer 1000 [mkQueueWrapper
         (mkProtocolClient (Some req_queue) (Some res_queue))])
      (partial_dispatch_process_reset_fn rank1_of_2);
    Call_manual_seed 100;
    Call_apply_random_seed consuming_pipeline (seeded 100);
    Call_manual_seed 101;
    Call_random_seed 111455052090;
    Call_torch_manual_seed 111455052091;
    Call_numpy_random_seed 4080869692]).
Proof. reflexivity. Qed.

Example reset_two_consumers :
  process_reset_fn two_consumers_pipeline worker0 rank1_of_2 None [] =
  (Raises (AssertionError L162_single_consumer), []).
Proof. reflexivity. Qed.

(** Against C2 as stated: a DataPipe with one non-replicable branch,
    initialised with the request queue only.  No assertion fails, and the
    stand-in is built on the one queue. *)
Lemma process_init_fn_one_queue_counterexample :
  exactly_one_queue (Some req_queue) None = true /\
  ~ raises_assertion
      (fst (process_init_fn dispatching_pipeline worker1 None
                            (Some req_queue) None [])).
Proof.
  split; [reflexivity|].
  intros [site Hsite]. vm_compute in Hsite. discriminate.
Qed.

Lemma process_init_fn_one_queue_witness :
  exactly_one_queue (Some req_queue) None = true /\
  passes_branch_checks
    (fst (process_init_fn dispatching_pipeline worker1 None
                          (Some req_queue) None [])) = true /\
  raises_assertion
    (fst (process_init_fn replicable_pipeline worker1 None
                          (Some req_queue) None [])).
Proof.
  split; [reflexivity|]. split.
  - apply (proj2 (process_init_fn_one_queue dispatching_pipeline worker1 None
                    (Some req_queue) None [] eq_refl) (Dummy 4)).
    reflexivity.
  - apply (proj1 (process_init_fn_one_queue replicable_pipeline worker1 None
                    (Some req_queue) None [] eq_refl)).
    vm_compute. discriminate.
Defined.

Lemma process_init_fn_branch_checks_witness :
  fst (process_init_fn replicable_pipeline worker1 None
                       (Some req_queue) (Some res_queue) [])
    = Raises (AssertionError L81_queues_absent) /\
  fst (process_init_fn two_dummies_pipeline worker1 None
                       (Some req_queue) (Some res_queue) [])
    = Raises (AssertionError L86_single_non_replicable) /\
  passes_branch_checks
    (fst (process_init_fn dispatching_pipeline worker1 None
                          (Some req_queue) (Some res_queue) [])) = true.
Proof.
  split; [|split].
  - apply (proj1 (process_init_fn_branch_checks replicable_pipeline worker1 None
                    (Some req_queue) (Some res_queue) [])); reflexivity.
  - apply (proj1 (proj2 (process_init_fn_branch_checks two_dummies_pipeline
                    worker1 None (Some req_queue) (Some res_queue) []))).
    vm_compute. lia.
  - apply (proj2 (proj2 (process_init_fn_branch_checks dispatching_pipeline
                    worker1 None (Some req_queue) (Some res_queue) []))).
    left. split; reflexivity.
Defined.

Lemma process_init_fn_sharding_paths_witness :
  (exists tail,
     events_of (process_init_fn replicable_pipeline worker1 None None None) []
     = sharding_call worker1 replicable_pipeline :: tail
     /\ only_custom_calls tail = true) /\
  (exists tail,
     events_of (process_init_fn dispatching_pipeline worker1 None
                                (Some req_queue) (Some res_queue)) []
     = [sharding_call worker1 (Mapper 2 (IterableWrapper 3));
        Call_replace_dp (sample_traverse_dps dispatching_pipeline) (Dummy 4)
          (Consumer 1000 [mkQueueWrapper
             (mkProtocolClient (Some req_queue) (Some res_queue))])] ++ tail
     /\ only_custom_calls tail = true).
Proof.
  split.
  - apply (proj1 (process_init_fn_sharding_paths replicable_pipeline worker1
                    None None None [])).
    reflexivity.
  - destruct (proj1 (proj2 (process_init_fn_sharding_paths dispatching_pipeline
                worker1 None (Some req_queue) (Some res_queue) []))
                (Dummy 4)) as [tail [Hev Htail]]; [reflexivity | reflexivity |].
    exists tail. split; [exact Hev | exact Htail].
Defined.

(** Against C1 as stated: worker 1 of rank 1 of 2, shared seed 100.  The
    worker seed is 103, the graph is seeded from 100. *)
Lemma process_reset_fn_graph_seed_counterexample :
  graph_seeds
    (events_of (process_reset_fn consuming_pipeline worker1 rank1_of_2 None) [])
    = [shared_seed rank1_of_2] /\
  graph_seeds
    (events_of (process_reset_fn consuming_pipeline worker1 rank1_of_2 None) [])
    <> [shared_seed rank1_of_2 + worker_id worker1 * world_size rank1_of_2
        + rank rank1_of_2].
Proof. split; [reflexivity|]. vm_compute. discriminate. Qed.

Lemma process_reset_fn_seeding_witness :
  (length (find_dps (traverse_dps [] consuming_pipeline)
                    _IterateQueueDataPipes) <= 1)%nat /\
  graph_seeds
    (events_of (process_reset_fn consuming_pipeline worker1 rank1_of_2 None) [])
    = [100] /\
  derived_worker_seed
    (events_of (process_reset_fn consuming_pipeline worker1 rank1_of_2 None) [])
    = Some 103.
Proof.
  assert (Hlen : (length (find_dps (traverse_dps [] consuming_pipeline)
                                   _IterateQueueDataPipes) <= 1)%nat)
    by (vm_compute; lia).
  destruct (process_reset_fn_seeding consuming_pipeline worker1 rank1_of_2
              None [] Hlen) as [_ [Hgraph [Hseed _]]].
  split; [exact Hlen | split; [exact Hgraph | exact Hseed]].
Defined.

Lemma reset_epoch_sent_once_by_worker_0_witness :
  reset_epochs
    (events_of (process_reset_fn consuming_pipeline worker1 rank1_of_2 None) [])
    = [] /\
  reset_epochs
    (events_of (process_reset_fn consuming_pipeline worker0 rank1_of_2 None) [])
    = [(Consumer 1000 [mkQueueWrapper
          (mkProtocolClient (Some req_queue) (Some res_queue))],
        partial_dispatch_process_reset_fn rank1_of_2)] /\
  derived_worker_seed
    (events_of (process_reset_fn consuming_pipeline worker1 rank1_of_2 None) [])
    = Some 103.
Proof.
  split; [|split].
  - apply (proj1 (reset_epoch_sent_once_by_worker_0 consuming_pipeline worker1
                    rank1_of_2 None [])).
    discriminate.
  - apply (proj1 (proj2 (reset_epoch_sent_once_by_worker_0 consuming_pipeline
                    worker0 rank1_of_2 None []))); reflexivity.
  - apply (proj2 (proj2 (proj2 (reset_epoch_sent_once_by_worker_0
                    consuming_pipeline worker1 rank1_of_2 None [])))).
    vm_compute. lia.
Defined.

(** Worker 1 of rank 1 of 2 with shared seed 100, once in a pool of 2 on the
    consuming pipeline and once in a pool of 5, without numpy, on another
    pipeline, with a custom function and from another state. *)
Lemma worker_seed_reproducible_witness :
  derived_worker_seed
    (events_of (process_reset_fn (env := collaborators) consuming_pipeline
                  {| num_workers := 2; worker_id := 1 |}
                  {| shared_seed := 100; world_size := 2; rank := 1 |} None) [])
    = Some 103 /\
  derived_worker_seed
    (events_of (process_reset_fn (env := collaborators_no_numpy) replicable_pipeline
                  {| num_workers := 5; worker_id := 1 |}
                  {| shared_seed := 100; world_size := 2; rank := 1 |} (Some keep))
               [Call_random_seed 9])
    = Some 103 /\
  103 = 103 /\ 103 = 100 + 1 * 2 + 1.
Proof.
  split; [reflexivity|]. split; [reflexivity|].
  apply (worker_seed_reproducible collaborators collaborators_no_numpy
           consuming_pipeline replicable_pipeline 2 5 None (Some keep)
           [] [Call_random_seed 9] 100 1 2 1 103 103); reflexivity.
Defined.

(** Worker 1 on ranks 1 and 0 of 2, shared seed 100. *)
Lemma worker_seeds_distinct_witness :
  0 <= 1 < 2 /\ 0 <= 0 < 2 /\ (1, 1) <> (1, 0) /\
  derived_worker_seed
    (events_of (process_reset_fn (env := collaborators) consuming_pipeline
                  {| num_workers := 2; worker_id := 1 |}
                  {| shared_seed := 100; world_size := 2; rank := 1 |} None) [])
    = Some 103 /\
  derived_worker_seed
    (events_of (process_reset_fn (env := collaborators) consuming_pipeline
                  {| num_workers := 2; worker_id := 1 |}
                  {| shared_seed := 100; world_size := 2; rank := 0 |} None) [])
    = Some 102 /\
  103 <> 102.
Proof.
  assert (Hne : (1, 1) <> (1, 0)) by (intros H; inversion H).
  split; [lia|]. split; [lia|]. split; [exact Hne|].
  split; [reflexivity|]. split; [reflexivity|].
  apply (worker_seeds_distinct collaborators collaborators
           consuming_pipeline consuming_pipeline 2 None None [] []
           100 2 1 1 1 0 103 102);
    [lia | lia | exact Hne | reflexivity | reflexivity].
Defined.

Lemma custom_fn_result_checked_witness :
  fst (process_init_fn replicable_pipeline worker1 (Some to_int) None None [])
    = Raises (AssertionError L103_init_returns_datapipe) /\
  fst (process_reset_fn replicable_pipeline worker1 rank1_of_2 (Some keep) [])
    = Returns replicable_pipeline.
Proof.
  split.
  - rewrite (proj1 (custom_fn_result_checked replicable_pipeline worker1
                      rank1_of_2 to_int None None [])
               replicable_pipeline
               [sharding_call worker1 replicable_pipeline]);
      reflexivity.
  - rewrite (proj2 (custom_fn_result_checked replicable_pipeline worker1
                      rank1_of_2 keep None None [])
               replicable_pipeline
               (snd (process_reset_fn replicable_pipeline worker1 rank1_of_2
                                      None [])));
      reflexivity.
Defined.

(** With seed 2 the sample int32 draw is -2087924459. *)
Lemma numpy_seed_is_uint32_witness :
  HAS_NUMPY (Collaborators := collaborators) = true /\
  random_int_value (Collaborators := collaborators)
    (advance (advance (seeded 2) (DrawInt None)) (DrawInt None))
    (Some torch_int32) = -2087924459 /\
  exists seed,
    numpy_seeds (events_of (_set_global_random_state (env := collaborators)
                                                     (seeded 2)) []) = [seed]
    /\ 0 <= seed < 2 ^ 32
    /\ seed = 2 ^ 32 + -2087924459.
Proof.
  split; [reflexivity|]. split; [reflexivity|].
  destruct (numpy_seed_is_uint32 (env := collaborators) (seeded 2) [] eq_refl)
    as [seed [Hs [Hr [Hneg _]]]].
  - vm_compute. split; [discriminate | reflexivity].
  - exists seed. split; [exact Hs|]. split; [exact Hr|].
    apply Hneg. vm_compute. reflexivity.
Defined.

End OnSamples.

(* ===================================================================== *)
(** ** Further facts: the dispatch process and the global random states   *)
(* ===================================================================== *)

Section MoreWorkerFacts.

Context {Obj Queue : Type} {env : Collaborators Obj Queue}.

Lemma dispatch_process_reset_fn_run (dp : Obj) wi di h :
  dispatch_process_reset_fn dp wi di h = (Returns dp, h ++ dispatch_reset_calls dp di).
Proof.
  unfold dispatch_process_reset_fn, dispatch_reset_calls, manual_seed,
    apply_random_seed, torch_Generator.
  unfold bind at 1. unfold bind at 1. unfold call at 1, ret at 1. cbv iota beta.
  unfold bind at 1. unfold bind at 1. unfold call at 1, ret at 1. cbv iota beta.
  unfold bind.
  destruct (_set_global_random_state_run
              (advance (seeded (shared_seed di)) (DrawGraphSeeds dp))
              ((h ++ [Call_manual_seed (shared_seed di)])
                 ++ [Call_apply_random_seed dp (seeded (shared_seed di))]))
    as [g' Hg].
  unfold seeded in *. rewrite Hg. unfold ret. f_equal.
  now rewrite <- !app_assoc.
Qed.

Lemma dispatch_process_reset_fn_events (dp : Obj) wi di h :
  events_of (dispatch_process_reset_fn dp wi di) h = dispatch_reset_calls dp di.
Proof.
  unfold events_of. rewrite dispatch_process_reset_fn_run. apply skipn_length_app.
Qed.


(** X2: [dispatch_process_reset_fn] seeds its generator once, with the
    shared seed, and never with a worker seed.  The graph is seeded from
    that generator, and the process-wide random states are set from the
    generator as the graph seeding left it.  The function sends no
    [reset_epoch] and applies no sharding. *)
Theorem dispatch_reset_seeds_once (dp : Obj) wi di h :
  let evs := events_of (dispatch_process_reset_fn dp wi di) h in
  generator_seeds evs = [shared_seed di]
  /\ graph_seedings evs = [(dp, seeded (shared_seed di))]
  /\ global_seedings evs
     = global_seed_calls (advance (seeded (shared_seed di)) (DrawGraphSeeds dp))
  /\ reset_epochs evs = []
  /\ sharding_calls evs = [].
Proof.
  cbv zeta. rewrite dispatch_process_reset_fn_events.
  unfold dispatch_reset_calls, global_seed_calls.
  destruct HAS_NUMPY; repeat split.
Qed.


(** X4: for a [torch.int32] draw, the seed [_set_global_random_state] gives
    to [numpy.random.seed] is the draw modulo 2^32, so two generators whose
    draws differ give numpy different seeds. *)
Theorem numpy_seed_is_draw_mod_2_32 (g1 g2 : Generator Obj) h1 h2 :
  HAS_NUMPY = true ->
  let draw3 (g : Generator Obj) :=
    random_int_value (advance (advance g (DrawInt None)) (DrawInt None))
                     (Some torch_int32) in
  - 2 ^ 31 <= draw3 g1 < 2 ^ 31 ->
  - 2 ^ 31 <= draw3 g2 < 2 ^ 31 ->
  numpy_seeds (events_of (_set_global_random_state g1) h1)
    = [draw3 g1 mod 2 ^ 32]
  /\ (numpy_seeds (events_of (_set_global_random_state g1) h1)
      = numpy_seeds (events_of (_set_global_random_state g2) h2) ->
      draw3 g1 = draw3 g2).
Proof.
  intros Hnp draw3 Hr1 Hr2. subst draw3. cbv beta in *.
  rewrite !_set_global_random_state_events. unfold global_seed_calls.
  rewrite Hnp. cbv zeta. simpl.
  set (n1 := random_int_value (advance (advance g1 _) _) _) in *.
  set (n2 := random_int_value (advance (advance g2 _) _) _) in *.
  split.
  - f_equal. destruct (Z.ltb_spec n1 0).
    + apply Z.mod_unique with (q := -1); lia.
    + symmetry. apply Z.mod_small. lia.
  - intros Heq. injection Heq as Heq.
    destruct (Z.ltb_spec n1 0), (Z.ltb_spec n2 0); lia.
Qed.

End MoreWorkerFacts.

(* ===================================================================== *)
(** ** Further facts: what the two functions call, and what they do not   *)
(* ===================================================================== *)

Section CallFacts.

Context {Obj Queue : Type} {env : Collaborators Obj Queue}.

Lemma shard_graph_history (dp : Obj) wi (req res : option Queue) h :
  snd (shard_graph dp wi req res h) = h ++ init_path_calls dp wi req res h.
Proof.
  unfold init_path_calls. cbv zeta.
  destruct (find_dps (traverse_dps h dp) _DummyIterDataPipe)
    as [|d [|d' nr]] eqn:Hnr.
  - now rewrite shard_graph_whole by exact Hnr.
  - destruct (queues_absent req res) eqn:Hq.
    + rewrite (shard_graph_no_queue _ _ _ _ _ d Hnr Hq). simpl.
      now rewrite app_nil_r.
    + rewrite (shard_graph_rewrite _ _ _ _ _ d Hnr Hq). simpl.
      now rewrite <- app_assoc.
  - rewrite shard_graph_many by (rewrite Hnr; simpl; lia). simpl.
    now rewrite app_nil_r.
Qed.

(** The calls of a run: those of the path, then the custom function if the
    path returned. *)
Lemma process_init_fn_events_split (dp : Obj) wi custom (req res : option Queue) h :
  events_of (process_init_fn dp wi custom req res) h =
  init_path_calls dp wi req res h
  ++ match fst (shard_graph dp wi req res h) with
     | Returns dp' => custom_calls custom dp' wi
     | Raises _ => []
     end.
Proof.
  unfold events_of. rewrite process_init_fn_bind.
  pose proof (shard_graph_history dp wi req res h) as Hh.
  destruct (shard_graph dp wi req res h) as [[dp'|e] h']; simpl in Hh; subst h'.
  - rewrite apply_custom_fn_events, <- app_assoc. apply skipn_length_app.
  - simpl. rewrite app_nil_r. apply skipn_length_app.
Qed.

Lemma flat_map_sharding_call {B} (f : event Obj -> list B) wi (xs : list Obj) :
  (forall x, f (sharding_call wi x) = []) ->
  flat_map f (map (sharding_call wi) xs) = [].
Proof.
  intros Hf. induction xs as [|x xs IH]; simpl; [reflexivity|].
  now rewrite Hf, IH.
Qed.

Lemma sharding_calls_map wi (xs : list Obj) :
  sharding_calls (map (sharding_call wi) xs)
  = map (fun dp => (dp, (num_workers wi, worker_id wi, MULTIPROCESSING))) xs.
Proof.
  induction xs as [|x xs IH]; simpl; [reflexivity|]. now rewrite <- IH.
Qed.

Lemma global_seedings_map wi (xs : list Obj) :
  global_seedings (map (sharding_call wi) xs) = [].
Proof. induction xs as [|x xs IH]; simpl; auto. Qed.


(** X6: [process_init_fn] calls the custom function at most once: not at all
    when an assertion or line 99 stops the run before line 101, and
    otherwise exactly once, as its last call, on the DataPipe the same run
    without a custom function returns (the rewritten one on the second
    path).  [process_reset_fn] does the same, on the DataPipe it was
    given. *)
Theorem custom_fn_called_once (dp : Obj) wi di f (req res : option Queue) h :
  custom_fn_calls (events_of (process_init_fn dp wi (Some f) req res) h)
    = match fst (process_init_fn dp wi None req res h) with
      | Returns dp' => [(dp', wi)]
      | Raises _ => []
      end
  /\ events_of (process_init_fn dp wi (Some f) req res) h
     = events_of (process_init_fn dp wi None req res) h
       ++ map (fun c => Call_custom_fn (fst c) (snd c))
              (custom_fn_calls (events_of (process_init_fn dp wi (Some f) req res) h))
  /\ custom_fn_calls (events_of (process_reset_fn dp wi di (Some f)) h)
     = match fst (process_reset_fn dp wi di None h) with
       | Returns _ => [(dp, wi)]
       | Raises _ => []
       end
  /\ events_of (process_reset_fn dp wi di (Some f)) h
     = events_of (process_reset_fn dp wi di None) h
       ++ map (fun c => Call_custom_fn (fst c) (snd c))
              (custom_fn_calls (events_of (process_reset_fn dp wi di (Some f)) h)).
Proof.
  assert (Hpath : custom_fn_calls (init_path_calls dp wi req res h) = []).
  { unfold init_path_calls. cbv zeta.
    destruct (find_dps (traverse_dps h dp) _DummyIterDataPipe)
      as [|d [|d' nr]]; try reflexivity.
    destruct (queues_absent req res); [reflexivity|].
    unfold custom_fn_calls. rewrite flat_map_app.
    now rewrite flat_map_sharding_call by reflexivity. }
  assert (Hinit : custom_fn_calls
                    (events_of (process_init_fn dp wi (Some f) req res) h)
                  = match fst (process_init_fn dp wi None req res h) with
                    | Returns dp' => [(dp', wi)]
                    | Raises _ => []
                    end).
  { rewrite process_init_fn_events_split, process_init_fn_None.
    unfold custom_fn_calls in *. rewrite flat_map_app, Hpath.
    destruct (fst (shard_graph dp wi req res h)); reflexivity. }
  assert (Hreset : custom_fn_calls
                     (events_of (process_reset_fn dp wi di (Some f)) h)
                   = match fst (process_reset_fn dp wi di None h) with
                     | Returns _ => [(dp, wi)]
                     | Raises _ => []
                     end).
  { destruct (le_lt_dec
                (length (find_dps (traverse_dps h dp) _IterateQueueDataPipes)) 1)
      as [Hlen|Hlen].
    - rewrite process_reset_fn_events by exact Hlen.
      rewrite (process_reset_fn_run _ _ _ _ None Hlen). simpl.
      unfold reset_messages, reseed_calls, global_seed_calls, custom_calls.
      destruct (find_dps (traverse_dps h dp) _IterateQueueDataPipes)
        as [|c [|c' cs]]; simpl in Hlen; try lia;
        destruct (worker_id wi =? 0), HAS_NUMPY; reflexivity.
    - rewrite events_of_aborted by exact Hlen.
      now rewrite process_reset_fn_many by exact Hlen. }
  split; [exact Hinit|]. split; [|split; [exact Hreset|]].
  - rewrite Hinit. rewrite !process_init_fn_events_split, process_init_fn_None.
    destruct (fst (shard_graph dp wi req res h)); simpl;
      now rewrite !app_nil_r.
  - rewrite Hreset.
    destruct (le_lt_dec
                (length (find_dps (traverse_dps h dp) _IterateQueueDataPipes)) 1)
      as [Hlen|Hlen].
    + rewrite !process_reset_fn_events by exact Hlen.
      rewrite (process_reset_fn_run _ _ _ _ None Hlen). simpl.
      now rewrite app_nil_r, <- !app_assoc.
    + rewrite !events_of_aborted by exact Hlen.
      now rewrite process_reset_fn_many by exact Hlen.
Qed.

(** X7: whatever its arguments and however it ends, [process_init_fn] seeds
    nothing and sends no [reset_epoch], and each of its [apply_sharding]
    calls passes the [num_workers] and [worker_id] of its [worker_info] and
    the priority [MULTIPROCESSING]. *)
Theorem process_init_fn_only_shards (dp : Obj) wi custom (req res : option Queue) h :
  let evs := events_of (process_init_fn dp wi custom req res) h in
  generator_seeds evs = []
  /\ graph_seedings evs = []
  /\ global_seedings evs = []
  /\ reset_epochs evs = []
  /\ Forall (fun c => snd c = (num_workers wi, worker_id wi, MULTIPROCESSING))
            (sharding_calls evs).
Proof.
  cbv zeta. rewrite process_init_fn_events_split.
  set (tail := match fst (shard_graph dp wi req res h) with
               | Returns dp' => custom_calls custom dp' wi
               | Raises _ => []
               end).
  assert (Htail : tail = [] \/ exists d, tail = [Call_custom_fn d wi]).
  { subst tail. destruct (fst (shard_graph dp wi req res h)) as [d|e];
      [|now left]. destruct custom; [right; now exists d | now left]. }
  unfold init_path_calls. cbv zeta.
  unfold generator_seeds, graph_seedings, reset_epochs, sharding_calls.
  unfold global_seedings. rewrite List.filter_app, !flat_map_app.
  destruct (find_dps (traverse_dps h dp) _DummyIterDataPipe)
    as [|d [|d' nr]].
  - destruct Htail as [->|[d ->]]; simpl; repeat split; repeat constructor.
  - destruct (queues_absent req res).
    + destruct Htail as [->|[d0 ->]]; simpl; repeat split; constructor.
    + rewrite List.filter_app, !flat_map_app.
      rewrite !flat_map_sharding_call by reflexivity.
      fold (global_seedings (map (sharding_call wi) (find_replicable_branches
                                                       (traverse_dps h dp)))).
      rewrite global_seedings_map.
      fold (sharding_calls (map (sharding_call wi) (find_replicable_branches
                                                      (traverse_dps h dp)))).
      rewrite sharding_calls_map.
      assert (Hall : forall xs : list Obj,
                 Forall (fun c : Obj * (Z * Z * SHARDING_PRIORITIES) =>
                           snd c = (num_workers wi, worker_id wi, MULTIPROCESSING))
                        (map (fun dp0 => (dp0, (num_workers wi, worker_id wi,
                                                MULTIPROCESSING))) xs)).
      { induction xs; simpl; constructor; auto. }
      destruct Htail as [->|[d0 ->]]; simpl; repeat split;
        rewrite ?app_nil_r; apply Hall.
  - destruct Htail as [->|[d0 ->]]; simpl; repeat split; constructor.
Qed.


End CallFacts.

(* ===================================================================== *)
(** ** Further facts: the worker seeds of a pool                          *)
(* ===================================================================== *)

Section SeedFacts.

Context {Obj Queue : Type} {env : Collaborators Obj Queue}.

(** X9: in a pool of [num_workers] workers on [world_size] ranks, every
    worker seed [process_reset_fn] derives lies in the block of
    num_workers * world_size integers that starts at the shared seed. *)
Theorem worker_seed_in_pool_block (dp : Obj) custom h (seed n ws wid rk s : Z) :
  0 <= wid < n -> 0 <= rk < ws ->
  derived_worker_seed
    (events_of (process_reset_fn dp {| num_workers := n; worker_id := wid |}
                  {| shared_seed := seed; world_size := ws; rank := rk |} custom) h)
    = Some s ->
  seed <= s < seed + n * ws.
Proof.
  intros Hwid Hrk Hs. apply derived_worker_seed_run in Hs.
  rewrite worker_seed_eq in Hs. simpl in Hs. subst s. nia.
Qed.

(** X10: every integer of that block is the worker seed of one position of
    the pool: the seed shared_seed + k, with 0 <= k < num_workers *
    world_size, is derived by worker k / world_size on rank k mod
    world_size, in every run that gets past line 162. *)
Theorem every_block_seed_is_derived (seed n ws k : Z) :
  0 < ws -> 0 <= k < n * ws ->
  0 <= k / ws < n
  /\ 0 <= k mod ws < ws
  /\ forall (dp : Obj) custom h,
       (length (find_dps (traverse_dps h dp) _IterateQueueDataPipes) <= 1)%nat ->
       derived_worker_seed
         (events_of (process_reset_fn dp
                       {| num_workers := n; worker_id := k / ws |}
                       {| shared_seed := seed; world_size := ws; rank := k mod ws |}
                       custom) h)
       = Some (seed + k).
Proof.
  intros Hws Hk. split; [|split].
  - split; [apply Z.div_pos; lia|]. apply Z.div_lt_upper_bound; lia.
  - apply Z.mod_pos_bound. lia.
  - intros dp custom h Hlen.
    rewrite derived_worker_seed_reached by exact Hlen.
    rewrite worker_seed_eq. simpl. f_equal.
    pose proof (Z.div_mod k ws ltac:(lia)). lia.
Qed.

(** X11: the worker seed depends on the shared seed and the rank only
    through their sum: a run with shared seed S on rank r + k and a run with
    shared seed S + k on rank r derive the same worker seed for the same
    [worker_id].  Worker seeds are distinct within one shared seed only. *)
Theorem worker_seed_shift (dp1 dp2 : Obj) custom1 custom2 h1 h2
    (seed n ws wid rk k s1 s2 : Z) :
  derived_worker_seed
    (events_of (process_reset_fn dp1 {| num_workers := n; worker_id := wid |}
                  {| shared_seed := seed; world_size := ws; rank := rk + k |}
                  custom1) h1)
    = Some s1 ->
  derived_worker_seed
    (events_of (process_reset_fn dp2 {| num_workers := n; worker_id := wid |}
                  {| shared_seed := seed + k; world_size := ws; rank := rk |}
                  custom2) h2)
    = Some s2 ->
  s1 = s2.
Proof.
  intros H1 H2.
  apply derived_worker_seed_run in H1. apply derived_worker_seed_run in H2.
  rewrite worker_seed_eq in H1, H2. simpl in H1, H2. lia.
Qed.

(** X12: with the defaults of [_DistInfo] (world size 1, rank 0), the worker
    seed is shared_seed + worker_id, and worker 0 sets its process-wide
    random states from a generator seeded with the shared seed itself, the
    seed the graph was seeded from. *)
Theorem default_dist_info_worker_seed (dp : Obj) custom h (seed n wid : Z) :
  (length (find_dps (traverse_dps h dp) _IterateQueueDataPipes) <= 1)%nat ->
  let evs (w : Z) :=
    events_of (process_reset_fn dp {| num_workers := n; worker_id := w |}
                                (_DistInfo_default seed) custom) h in
  derived_worker_seed (evs wid) = Some (seed + wid)
  /\ global_seedings (evs 0) = global_seed_calls (seeded seed)
  /\ graph_seeds (evs 0) = [seed].
Proof.
  intros Hlen evs. subst evs. cbv beta. split; [|split].
  - rewrite derived_worker_seed_reached by exact Hlen.
    rewrite worker_seed_eq. simpl. f_equal. lia.
  - rewrite global_seedings_run by exact Hlen.
    rewrite worker_seed_eq. simpl. do 2 f_equal. lia.
  - unfold graph_seeds. now rewrite graph_seedings_run by exact Hlen.
Qed.

End SeedFacts.

(* ===================================================================== *)
(** ** Further facts: columns in the store                                *)
(* ===================================================================== *)

Section MoreColumnFacts.

Import ColumnFromVelox.
Local Open Scope string_scope.

Context {Scope Device DType BaseColumn Other : Type}.
Variable scope_Column :
  Scope -> DType -> Device ->
  gmap positive (gmap string (@value BaseColumn Other)) ->
  positive * gmap positive (gmap string (@value BaseColumn Other)).

Lemma dom_setattr o name v (st : gmap positive (gmap string (@value BaseColumn Other))) :
  dom (setattr o name v st) = {[o]} ∪ dom st.
Proof. unfold setattr. apply dom_insert_L. Qed.

Lemma attribute_names_setattr o name v
    (st : gmap positive (gmap string (@value BaseColumn Other))) :
  attribute_names o (setattr o name v st) = {[name]} ∪ attribute_names o st.
Proof.
  unfold attribute_names, setattr. rewrite lookup_insert_eq. simpl.
  apply dom_insert_L.
Qed.

(** What [from_velox] returns and leaves in the store. *)
Lemma from_velox_store scope device dtype data finialized st :
  let col := fst (scope_Column scope dtype device st) in
  let st0 := snd (scope_Column scope dtype device st) in
  let st' := snd (from_velox scope_Column scope device dtype data finialized st) in
  fst (from_velox scope_Column scope device dtype data finialized st) = col
  /\ getattr col "_data" st' = Some (VBaseColumn data)
  /\ getattr col "_finialized" st' = Some (VBool finialized)
  /\ (forall o, o <> col -> st' !! o = st0 !! o).
Proof.
  cbv zeta. unfold from_velox.
  destruct (scope_Column scope dtype device st) as [col st0]. simpl.
  repeat split.
  - rewrite getattr_setattr_ne by discriminate. apply getattr_setattr_eq.
  - apply getattr_setattr_eq.
  - intros o Ho. rewrite !lookup_setattr_ne by congruence. reflexivity.
Qed.

(** X13: [from_velox] removes no object and no attribute: after the call the
    store holds the column and every object [scope.Column] left in it, and
    the attributes of the column are [_data], [_finialized] and those
    [scope.Column] gave it. *)
Theorem from_velox_adds_two_attributes scope device dtype data finialized st :
  let col := fst (scope_Column scope dtype device st) in
  let st0 := snd (scope_Column scope dtype device st) in
  let st' := snd (from_velox scope_Column scope device dtype data finialized st) in
  dom st' = {[col]} ∪ dom st0
  /\ attribute_names col st'
     = {["_data"; "_finialized"]} ∪ attribute_names col st0.
Proof.
  cbv zeta. unfold from_velox.
  destruct (scope_Column scope dtype device st) as [col st0]. simpl. split.
  - rewrite !dom_setattr. apply set_eq. intros o.
    rewrite !elem_of_union, !elem_of_singleton. tauto.
  - rewrite !attribute_names_setattr. apply set_eq. intros name.
    rewrite !elem_of_union, !elem_of_singleton. tauto.
Qed.

(** X14: two columns built one after the other keep their own fields, when
    the second [scope.Column] returns another object than the first column
    and leaves the first column as it was. *)
Theorem from_velox_twice_independent
    scope1 device1 dtype1 data1 fin1 scope2 device2 dtype2 data2 fin2 st :
  let r1 := from_velox scope_Column scope1 device1 dtype1 data1 fin1 st in
  let c2 := scope_Column scope2 dtype2 device2 (snd r1) in
  let r2 := from_velox scope_Column scope2 device2 dtype2 data2 fin2 (snd r1) in
  fst c2 <> fst r1 ->
  snd c2 !! fst r1 = snd r1 !! fst r1 ->
  getattr (fst r1) "_data" (snd r2) = Some (VBaseColumn data1)
  /\ getattr (fst r1) "_finialized" (snd r2) = Some (VBool fin1)
  /\ getattr (fst r2) "_data" (snd r2) = Some (VBaseColumn data2)
  /\ getattr (fst r2) "_finialized" (snd r2) = Some (VBool fin2).
Proof.
  cbv zeta. intros Hne Hkeep.
  pose proof (from_velox_store scope1 device1 dtype1 data1 fin1 st)
    as H1. cbv zeta in H1. destruct H1 as (Hc1 & Hd1 & Hf1 & _).
  rewrite <- Hc1 in Hd1, Hf1.
  pose proof (from_velox_store scope2 device2 dtype2 data2 fin2
                (snd (from_velox scope_Column scope1 device1 dtype1 data1 fin1 st)))
    as H2. cbv zeta in H2. destruct H2 as (Hc2 & Hd2 & Hf2 & Hother).
  rewrite Hc2. repeat split; try assumption.
  - unfold getattr in *. rewrite Hother by congruence. now rewrite Hkeep.
  - unfold getattr in *. rewrite Hother by congruence. now rewrite Hkeep.
Qed.

(** X15: [from_velox] writes into the object [scope.Column] returns.  When a
    second [scope.Column] returns the object of the first column again, the
    first column, being that object, shows the data and the flag of the
    second call. *)
Theorem from_velox_same_object_overwritten
    scope1 device1 dtype1 data1 fin1 scope2 device2 dtype2 data2 fin2 st :
  let r1 := from_velox scope_Column scope1 device1 dtype1 data1 fin1 st in
  let c2 := scope_Column scope2 dtype2 device2 (snd r1) in
  let r2 := from_velox scope_Column scope2 device2 dtype2 data2 fin2 (snd r1) in
  fst c2 = fst r1 ->
  fst r2 = fst r1
  /\ getattr (fst r1) "_data" (snd r2) = Some (VBaseColumn data2)
  /\ getattr (fst r1) "_finialized" (snd r2) = Some (VBool fin2).
Proof.
  cbv zeta. intros Hsame.
  pose proof (from_velox_store scope2 device2 dtype2 data2 fin2
                (snd (from_velox scope_Column scope1 device1 dtype1 data1 fin1 st)))
    as H2. cbv zeta in H2. destruct H2 as (Hc2 & Hd2 & Hf2 & _).
  rewrite <- Hsame. repeat split; assumption.
Qed.

End MoreColumnFacts.

(* ===================================================================== *)
(** ** The further facts on concrete pipelines and stores                 *)
(* ===================================================================== *)

Section MoreOnSamples.

Import Sample.



(** Seeds 2 and 3: the int32 draws are -2087924459 and -984409214. *)
Lemma numpy_seed_is_draw_mod_2_32_witness :
  HAS_NUMPY (Collaborators := collaborators) = true /\
  numpy_seeds (events_of (_set_global_random_state (env := collaborators)
                                                     (seeded 2)) [])
    = [(-2087924459) mod 2 ^ 32].
Proof.
  split; [reflexivity|].
  apply (numpy_seed_is_draw_mod_2_32 (env := collaborators)
           (seeded 2) (seeded 3) [] [] eq_refl);
    vm_compute; split; first [discriminate | reflexivity].
Defined.


(** Worker 1 on rank 1 of a pool of 2 workers on 2 ranks, shared seed 100. *)
Lemma worker_seed_in_pool_block_witness :
  0 <= 1 < 2 /\ 0 <= 1 < 2 /\
  derived_worker_seed
    (events_of (process_reset_fn consuming_pipeline
                  {| num_workers := 2; worker_id := 1 |}
                  {| shared_seed := 100; world_size := 2; rank := 1 |} None) [])
    = Some 103 /\
  100 <= 103 < 100 + 2 * 2.
Proof.
  split; [lia|]. split; [lia|]. split; [reflexivity|].
  apply (worker_seed_in_pool_block consuming_pipeline None [] 100 2 2 1 1 103);
    [lia | lia | reflexivity].
Defined.

(** The last seed of the block of that pool, 100 + 3, is the one of worker
    3 / 2 = 1 on rank 3 mod 2 = 1. *)
Lemma every_block_seed_is_derived_witness :
  0 < 2 /\ 0 <= 3 < 2 * 2 /\
  (length (find_dps (traverse_dps [] consuming_pipeline)
                    _IterateQueueDataPipes) <= 1)%nat /\
  derived_worker_seed
    (events_of (process_reset_fn consuming_pipeline
                  {| num_workers := 2; worker_id := 3 / 2 |}
                  {| shared_seed := 100; world_size := 2; rank := 3 mod 2 |}
                  None) [])
    = Some (100 + 3).
Proof.
  assert (Hlen : (length (find_dps (traverse_dps [] consuming_pipeline)
                                   _IterateQueueDataPipes) <= 1)%nat)
    by (vm_compute; lia).
  split; [lia|]. split; [lia|]. split; [exact Hlen|].
  destruct (every_block_seed_is_derived (env := collaborators) 100 2 2 3)
    as (_ & _ & Hrun); [lia | lia |].
  apply Hrun. exact Hlen.
Defined.

(** Shared seed 100 on rank 1 and shared seed 101 on rank 0, worker 1. *)
Lemma worker_seed_shift_witness :
  derived_worker_seed
    (events_of (process_reset_fn consuming_pipeline
                  {| num_workers := 2; worker_id := 1 |}
                  {| shared_seed := 100; world_size := 2; rank := 0 + 1 |}
                  None) [])
    = Some 103 /\
  derived_worker_seed
    (events_of (process_reset_fn consuming_pipeline
                  {| num_workers := 2; worker_id := 1 |}
                  {| shared_seed := 100 + 1; world_size := 2; rank := 0 |}
                  None) [])
    = Some 103 /\
  103 = 103.
Proof.
  split; [reflexivity|]. split; [reflexivity|].
  apply (worker_seed_shift consuming_pipeline consuming_pipeline None None [] []
           100 2 2 1 0 1 103 103); reflexivity.
Defined.

Lemma default_dist_info_worker_seed_witness :
  (length (find_dps (traverse_dps [] consuming_pipeline)
                    _IterateQueueDataPipes) <= 1)%nat /\
  derived_worker_seed
    (events_of (process_reset_fn consuming_pipeline
                  {| num_workers := 4; worker_id := 3 |}
                  (_DistInfo_default 100) None) [])
    = Some (100 + 3).
Proof.
  assert (Hlen : (length (find_dps (traverse_dps [] consuming_pipeline)
                                   _IterateQueueDataPipes) <= 1)%nat)
    by (vm_compute; lia).
  split; [exact Hlen|].
  apply (proj1 (default_dist_info_worker_seed consuming_pipeline None []
                  100 4 3 Hlen)).
Defined.

(** Two columns from the scope that builds a new object each time. *)
Lemma from_velox_twice_independent_witness :
  ColumnFromVelox.getattr 1 "_data"
    (snd (ColumnFromVelox.from_velox ColumnFromVelox.fresh_scope_Column
            0 0 8 43 false
            (snd (ColumnFromVelox.from_velox ColumnFromVelox.fresh_scope_Column
                    0 0 7 42 true ∅))))
    = Some (ColumnFromVelox.VBaseColumn 42) /\
  ColumnFromVelox.getattr 2 "_data"
    (snd (ColumnFromVelox.from_velox ColumnFromVelox.fresh_scope_Column
            0 0 8 43 false
            (snd (ColumnFromVelox.from_velox ColumnFromVelox.fresh_scope_Column
                    0 0 7 42 true ∅))))
    = Some (ColumnFromVelox.VBaseColumn 43).
Proof.
  destruct (from_velox_twice_independent ColumnFromVelox.fresh_scope_Column
              0 0 7 42 true 0 0 8 43 false ∅) as (H1 & _ & H2 & _).
  - vm_compute. discriminate.
  - vm_compute. reflexivity.
  - split; [exact H1 | exact H2].
Defined.

(** Two columns from the scope that always builds the object at address 1. *)
Lemma from_velox_same_object_overwritten_witness :
  fst (ColumnFromVelox.from_velox ColumnFromVelox.sample_scope_Column
         0 0 7 42 true ∅) = 1%positive /\
  ColumnFromVelox.getattr 1 "_data"
    (snd (ColumnFromVelox.from_velox ColumnFromVelox.sample_scope_Column
            0 0 8 43 false
            (snd (ColumnFromVelox.from_velox ColumnFromVelox.sample_scope_Column
                    0 0 7 42 true ∅))))
    = Some (ColumnFromVelox.VBaseColumn 43).
Proof.
  split; [reflexivity|].
  destruct (from_velox_same_object_overwritten ColumnFromVelox.sample_scope_Column
              0 0 7 42 true 0 0 8 43 false ∅) as (_ & H & _).
  - reflexivity.
  - exact H.
Defined.

End MoreOnSamples.
